(** * Fenster bridge: a model of [src/native/fenster_bridge.c]

    The bridge is a thin C wrapper around the single-header window library
    [fenster.h].  It owns a pixel buffer and a copy of the window title,
    forwards open / loop / close to the library and reallocates the pixel
    buffer when the physical size of the window changes.

    The model is a shallow embedding: the C heap is a finite map from
    addresses to byte blocks, the two structs are records, every exported
    function is a Rocq function that threads the heap and the struct, and
    the C [float] is IEEE-754 binary32 as specified by [SpecFloat]. *)

From Stdlib Require Import ZArith Lia Bool.
From Stdlib Require Import Strings.Byte.
From Stdlib Require Import Floats.SpecFloat.
From stdpp Require Import base option list gmap.

Local Open Scope Z_scope.

(** ** C integers *)

Module CInt.

Definition INT_MIN : Z := - 2 ^ 31.
Definition INT_MAX : Z := 2 ^ 31 - 1.
Definition SIZE_MOD : Z := 2 ^ 64.

(** A value that fits a C [int]. *)
Definition is_int (z : Z) : Prop := INT_MIN <= z <= INT_MAX.

Definition is_intb (z : Z) : bool := (INT_MIN <=? z) && (z <=? INT_MAX).

(** [(size_t)z] for an [int] z: conversion is modulo 2^64. *)
Definition size_t_of_int (z : Z) : Z := z mod SIZE_MOD.

(** Multiplication of two [size_t] values wraps around. *)
Definition size_mul (a b : Z) : Z := (a * b) mod SIZE_MOD.

(** [sizeof(uint32_t)]. *)
Definition sizeof_uint32 : Z := 4.

End CInt.

(** ** The C heap

    A block is the list of its bytes; the heap maps the address of every live
    block to its contents.  [NULL] is address 0 and is never live. *)

Module Mem.
Import CInt.

Abbreviation ptr := Z (only parsing).
Abbreviation heap := (gmap Z (list byte)) (only parsing).

Definition NULL : Z := 0.

(** The allocator belongs to the environment.  Every allocating call is
    handed the answer [a] of the allocator: [NULL] when memory is
    exhausted, otherwise the address of the new block.  An allocator never
    answers with a live address, so such an answer is read as a failure
    too, which keeps the functions total. *)
Definition can_place (m : heap) (a : ptr) : bool :=
  negb (a =? NULL) && bool_decide (m !! a = None).

(** [calloc(nmemb, size)]: fails when [nmemb * size] overflows [size_t],
    otherwise installs a block of [nmemb * size] zero bytes. *)
Definition calloc (m : heap) (a : ptr) (nmemb size : Z) : heap * ptr :=
  if can_place m a && (nmemb * size <? SIZE_MOD)
  then (<[a := replicate (Z.to_nat (nmemb * size)) x00]> m, a)
  else (m, NULL).

(** [strdup(s)]: a fresh block holding the bytes of [s] and the
    terminating zero byte. *)
Definition strdup (m : heap) (a : ptr) (s : list byte) : heap * ptr :=
  if can_place m a
  then (<[a := s ++ [x00]]> m, a)
  else (m, NULL).

(** [free(p)]; [free(NULL)] does nothing. *)
Definition free (m : heap) (p : ptr) : heap :=
  if p =? NULL then m else delete p m.

(** [memcpy(dst, src, n)] where the source region is given by its bytes.
    Copying more than the destination block or the source region holds is
    undefined behaviour, rendered as [None]. *)
Definition memcpy (m : heap) (dst : ptr) (src : list byte) (n : Z)
  : option heap :=
  match m !! dst with
  | Some old =>
      if (n <=? Z.of_nat (length old)) && (n <=? Z.of_nat (length src))
      then Some (<[dst := take (Z.to_nat n) src ++ drop (Z.to_nat n) old]> m)
      else None
  | None => None
  end.

(** The [i]-th 32-bit pixel of a block, assembled from its four bytes
    (least significant first). *)
Definition pixel_at (b : list byte) (i : nat) : option Z :=
  match b !! (4 * i)%nat, b !! (4 * i + 1)%nat,
        b !! (4 * i + 2)%nat, b !! (4 * i + 3)%nat with
  | Some b0, Some b1, Some b2, Some b3 =>
      Some (Z.of_N (Byte.to_N b0)
            + Z.shiftl (Z.of_N (Byte.to_N b1)) 8
            + Z.shiftl (Z.of_N (Byte.to_N b2)) 16
            + Z.shiftl (Z.of_N (Byte.to_N b3)) 24)
  | _, _, _, _ => None
  end.

End Mem.

(** ** The C [float]

    IEEE-754 binary32: 24 bits of precision, exponent bound 128, rounding
    to nearest even. *)

Module Float32.
Import CInt.

Abbreviation float := spec_float (only parsing).

Definition prec : Z := 24.
Definition emax : Z := 128.

(** [(float)n] for an [int] n. *)
Definition of_int (n : Z) : float := binary_normalize prec emax n 0 false.

Definition mul (x y : float) : float := SFmul prec emax x y.

(** [1.0f] and [0.0f]. *)
Definition one : float := S754_finite false 8388608 (-23).
Definition zero : float := S754_zero false.

(** The integral part of a finite float, rounded toward zero. *)
Definition trunc (x : float) : option Z :=
  match x with
  | S754_zero _ => Some 0
  | S754_finite s m e =>
      let q := if 0 <=? e then Z.pos m * 2 ^ e else Z.pos m / 2 ^ (- e) in
      Some (if s then - q else q)
  | S754_infinity _ | S754_nan => None
  end.

(** [(int)x]: truncation toward zero; the conversion is undefined when
    the integral part does not fit an [int] (and for infinities and NaN),
    rendered as [None]. *)
Definition to_int (x : float) : option Z :=
  match trunc x with
  | Some z => if is_intb z then Some z else None
  | None => None
  end.

End Float32.

(** ** The window library

    [fenster.h] is not among the sources: the struct is rendered from the
    members the bridge uses, and the library routines are parameters of the
    development. *)

Module Fenster.
Import Mem.

Section Struct.
Context {platform ximage : Type}.

(** Modelled from the spec: [struct fenster] is declared in [fenster.h],
    which is not among the sources.  The record lists the members the
    bridge reads or writes; the remaining, platform-specific members
    (display connection, window, graphics context, pointer position) are
    kept in [rest], and the intermediate image object of the X11 backend is
    kept abstract. *)
Record fenster : Type := {
  title : ptr;
  width : Z;
  height : Z;
  buf : ptr;
  keys : list Z;
  mod_ : Z;
  phys_width : Z;
  phys_height : Z;
  scale : Float32.float;
  img : option ximage;
  rest : platform
}.

Definition with_buf (w : fenster) (p : ptr) : fenster :=
  {| title := title w; width := width w; height := height w; buf := p;
     keys := keys w; mod_ := mod_ w; phys_width := phys_width w;
     phys_height := phys_height w; scale := scale w; img := img w;
     rest := rest w |}.

Definition with_img (w : fenster) (i : option ximage) : fenster :=
  {| title := title w; width := width w; height := height w;
     buf := buf w; keys := keys w; mod_ := mod_ w;
     phys_width := phys_width w; phys_height := phys_height w;
     scale := scale w; img := i; rest := rest w |}.

Definition with_scale (w : fenster) (s : Float32.float) : fenster :=
  {| title := title w; width := width w; height := height w;
     buf := buf w; keys := keys w; mod_ := mod_ w;
     phys_width := phys_width w; phys_height := phys_height w;
     scale := s; img := img w; rest := rest w |}.

Definition with_phys_width (w : fenster) (z : Z) : fenster :=
  {| title := title w; width := width w; height := height w;
     buf := buf w; keys := keys w; mod_ := mod_ w;
     phys_width := z; phys_height := phys_height w;
     scale := scale w; img := img w; rest := rest w |}.

Definition with_phys_height (w : fenster) (z : Z) : fenster :=
  {| title := title w; width := width w; height := height w;
     buf := buf w; keys := keys w; mod_ := mod_ w;
     phys_width := phys_width w; phys_height := z;
     scale := scale w; img := img w; rest := rest w |}.
End Struct.

Arguments fenster : clear implicits.

(** Modelled from the spec: what the bridge is compiled against and is not
    among the sources, taken as parameters: the library routines of
    [fenster.h], the X11 image constructor, the platform, and the size of
    the handle record.  [event] stands for whatever the window system does
    during a call. *)
Class Library : Type := {
  event : Type;
  platform : Type;
  ximage : Type;
  (** the all-zero value of the platform members *)
  platform_zero : platform;
  (** status and the library's updates to the struct *)
  fenster_open : event -> fenster platform ximage
                 -> Z * fenster platform ximage;
  fenster_loop : event -> fenster platform ximage
                 -> Z * fenster platform ximage;
  fenster_close : fenster platform ximage -> fenster platform ximage;
  (** [XCreateImage(dpy, visual, 24, ZPixmap, 0, data, w, h, 32, 0)] *)
  XCreateImage : platform -> ptr -> Z -> Z -> option ximage;
  (** [!defined(__APPLE__) && !defined(_WIN32)] *)
  x11 : bool;
  sizeof_fenster_bridge : Z
}.

(** What is assumed of the library: it reads the pixel buffer but never
    redirects the pointer, and the physical dimensions it stores are C
    [int]s. *)
Record LibraryOk (L : Library) : Prop := {
  open_keeps_buf : forall ev w, buf (fenster_open ev w).2 = buf w;
  loop_keeps_buf : forall ev w, buf (fenster_loop ev w).2 = buf w;
  open_phys_int : forall ev w,
    CInt.is_int (phys_width (fenster_open ev w).2) /\
    CInt.is_int (phys_height (fenster_open ev w).2);
  loop_phys_int : forall ev w,
    CInt.is_int (phys_width (fenster_loop ev w).2) /\
    CInt.is_int (phys_height (fenster_loop ev w).2)
}.

End Fenster.

(** ** The bridge *)

Module Bridge.
Import CInt Mem Fenster.

Section WithLibrary.
Context {L : Library}.

Abbreviation window := (fenster platform ximage) (only parsing).

(** [typedef struct { ... } fenster_bridge;] *)
Record fenster_bridge : Type := {
  f : window;
  buf : ptr;
  title_copy : ptr;
  resized : Z;
  prev_width : Z;
  prev_height : Z;
  prev_scale : Float32.float
}.

(** Assignments to the members of [*fb]. *)
Definition set_f (b : fenster_bridge) (w : window) : fenster_bridge :=
  {| f := w; buf := buf b; title_copy := title_copy b;
     resized := resized b; prev_width := prev_width b;
     prev_height := prev_height b; prev_scale := prev_scale b |}.

Definition set_buf (b : fenster_bridge) (p : ptr) : fenster_bridge :=
  {| f := f b; buf := p; title_copy := title_copy b;
     resized := resized b; prev_width := prev_width b;
     prev_height := prev_height b; prev_scale := prev_scale b |}.

Definition set_resized (b : fenster_bridge) (z : Z) : fenster_bridge :=
  {| f := f b; buf := buf b; title_copy := title_copy b;
     resized := z; prev_width := prev_width b;
     prev_height := prev_height b; prev_scale := prev_scale b |}.

Definition set_prev_width (b : fenster_bridge) (z : Z) : fenster_bridge :=
  {| f := f b; buf := buf b; title_copy := title_copy b;
     resized := resized b; prev_width := z;
     prev_height := prev_height b; prev_scale := prev_scale b |}.

Definition set_prev_height (b : fenster_bridge) (z : Z) : fenster_bridge :=
  {| f := f b; buf := buf b; title_copy := title_copy b;
     resized := resized b; prev_width := prev_width b;
     prev_height := z; prev_scale := prev_scale b |}.

Definition set_prev_scale (b : fenster_bridge) (x : Float32.float)
  : fenster_bridge :=
  {| f := f b; buf := buf b; title_copy := title_copy b;
     resized := resized b; prev_width := prev_width b;
     prev_height := prev_height b; prev_scale := x |}.

(** A live handle: the heap, the address of the handle record and the
    values of its members.  The storage of the record is a block of the
    heap (of [sizeof(fenster_bridge)] bytes), so that its allocation and
    release are accounted for; the member values live in [fb]. *)
Record state : Type := {
  mem : heap;
  self : ptr;
  fb : fenster_bridge
}.

Definition update (s : state) (m : heap) (b : fenster_bridge) : state :=
  {| mem := m; self := self s; fb := b |}.

(** The result of [fenster_bridge_create]: a handle, or [NULL] together
    with the heap that is left. *)
Inductive created : Type :=
| Handle (s : state)
| Null (m : heap).

(** [does_differ b]: the test
    [fb->f.phys_width != fb->prev_width ||
     fb->f.phys_height != fb->prev_height]. *)
Definition does_differ (b : fenster_bridge) : bool :=
  negb (phys_width (f b) =? prev_width b)
  || negb (phys_height (f b) =? prev_height b).

Definition fenster_bridge_create
    (m : heap) (a_fb a_buf a_title : ptr)
    (title : list byte) (w h : Z) : created :=
  let '(m, fb) := calloc m a_fb 1 sizeof_fenster_bridge in
  if fb =? NULL then Null m else
  let '(m, fb_buf) :=
    calloc m a_buf (size_mul (size_t_of_int w) (size_t_of_int h))
           sizeof_uint32 in
  if fb_buf =? NULL then Null (free m fb) else
  (* copy of the title, so that the caller need not keep it alive *)
  let '(m, fb_title_copy) := strdup m a_title title in
  (* designated initialiser: every member not named is zero *)
  let init :=
    {| Fenster.title := fb_title_copy; width := w; height := h;
       Fenster.buf := fb_buf;
       keys := replicate 256 0; mod_ := 0;
       phys_width := 0; phys_height := 0; scale := Float32.zero;
       img := None; rest := platform_zero |} in
  Handle {| mem := m; self := fb;
            fb := {| f := init; buf := fb_buf;
                     title_copy := fb_title_copy;
                     resized := 0;
                     prev_width := w; prev_height := h;
                     prev_scale := Float32.one |} |}.

Definition fenster_bridge_open (ev : event) (a : ptr) (s : state)
  : Z * state :=
  let '(result, w) := fenster_open ev (f (fb s)) in
  let b := set_f (fb s) w in
  if negb (result =? 0) then (result, update s (mem s) b) else
  (* reallocate the buffer at the physical (scaled) dimensions *)
  let '(m, b) :=
    if does_differ b then
      let '(m, new_buf) :=
        calloc (mem s) a
               (size_mul (size_t_of_int (phys_width (f b)))
                         (size_t_of_int (phys_height (f b))))
               sizeof_uint32 in
      if negb (new_buf =? NULL) then
        let m := free m (buf b) in
        let b := set_buf b new_buf in
        let b := set_f b (with_buf (f b) new_buf) in
        let b := set_prev_width b (phys_width (f b)) in
        let b := set_prev_height b (phys_height (f b)) in
        (m, b)
      else (m, b)
    else (mem s, b) in
  let b := set_prev_scale b (scale (f b)) in
  (0, update s m b).

Definition fenster_bridge_loop (ev : event) (a : ptr) (s : state)
  : Z * state :=
  let '(result, w) := fenster_loop ev (f (fb s)) in
  let b := set_f (fb s) w in
  (* a resize is detected by the physical dimensions *)
  let '(m, b) :=
    if does_differ b then
      let newW := phys_width (f b) in
      let newH := phys_height (f b) in
      let '(m, new_buf) :=
        calloc (mem s) a
               (size_mul (size_t_of_int newW) (size_t_of_int newH))
               sizeof_uint32 in
      if negb (new_buf =? NULL) then
        let m := free m (buf b) in
        let b := set_buf b new_buf in
        let b := set_f b (with_buf (f b) new_buf) in
        (* X11: the old image is destroyed with its data pointer
           cleared, so the pixel memory is not released again, and an
           image over the new buffer is created *)
        let b :=
          if x11
          then set_f b (with_img (f b)
                          (XCreateImage (rest (f b)) new_buf newW newH))
          else b in
        let b := set_resized b 1 in
        let b := set_prev_width b newW in
        let b := set_prev_height b newH in
        let b := set_prev_scale b (scale (f b)) in
        (m, b)
      else (m, b)
    else (mem s, b) in
  (result, update s m b).

(** [fenster_bridge_close]: nothing on [NULL]; otherwise the library is
    closed and the buffer, the title copy and the handle are freed. *)
Definition fenster_bridge_close (h : created) : heap :=
  match h with
  | Null m => m
  | Handle s =>
      let _ := fenster_close (f (fb s)) in
      let m := free (mem s) (buf (fb s)) in
      let m := free m (title_copy (fb s)) in
      free m (self s)
  end.

Definition fenster_bridge_get_buf (s : state) : ptr := buf (fb s).

(** [memcpy(fb->buf, src, (size_t)byte_length)]; [src] is the readable
    region behind the source pointer. *)
Definition fenster_bridge_copy_buf
    (s : state) (src : list byte) (byte_length : Z) : option state :=
  m ← memcpy (mem s) (buf (fb s)) src (size_t_of_int byte_length);
  Some (update s m (fb s)).

Definition fenster_bridge_get_keys (s : state) : list Z := keys (f (fb s)).

Definition fenster_bridge_get_mod (s : state) : Z := mod_ (f (fb s)).

(** The out-parameters [*w] and [*h] are returned. *)
Definition fenster_bridge_get_size (s : state) : Z * Z :=
  (width (f (fb s)), height (f (fb s))).

(** Returns [was_resized], [*w], [*h] and the state with the flag
    cleared. *)
Definition fenster_bridge_get_resized (s : state) : (Z * Z * Z) * state :=
  let was_resized := resized (fb s) in
  let w := phys_width (f (fb s)) in
  let h := phys_height (f (fb s)) in
  let b := set_resized (fb s) 0 in
  ((was_resized, w, h), update s (mem s) b).

Definition fenster_bridge_get_scale (s : state) : Float32.float :=
  scale (f (fb s)).

(** [(int)(fb->f.width * scale)]: the [int] is converted to [float],
    multiplied in [float] (evaluated in binary32, as with SSE or NEON
    arithmetic) and truncated; the truncation is undefined when out of
    range. *)
Definition scaled (n : Z) (scale : Float32.float) : option Z :=
  Float32.to_int (Float32.mul (Float32.of_int n) scale).

Definition fenster_bridge_set_scale (s : state) (scale : Float32.float)
  : option state :=
  let b := set_f (fb s) (with_scale (f (fb s)) scale) in
  pw ← scaled (width (f b)) scale;
  let b := set_f b (with_phys_width (f b) pw) in
  ph ← scaled (height (f b)) scale;
  let b := set_f b (with_phys_height (f b) ph) in
  Some (update s (mem s) b).


(** *** Sessions: the calls a client can make on a live handle *)

Inductive call : Type :=
| Open (ev : event) (a : ptr)
| Loop (ev : event) (a : ptr)
| GetBuf
| CopyBuf (src : list byte) (byte_length : Z)
| GetKeys
| GetMod
| GetSize
| GetResized
| GetScale
| SetScale (scale : Float32.float).

(** The state after a call; [None] when the call has undefined
    behaviour. *)
Definition step (c : call) (s : state) : option state :=
  match c with
  | Open ev a => Some (fenster_bridge_open ev a s).2
  | Loop ev a => Some (fenster_bridge_loop ev a s).2
  | CopyBuf src n => fenster_bridge_copy_buf s src n
  | GetResized => Some (fenster_bridge_get_resized s).2
  | SetScale x => fenster_bridge_set_scale s x
  | GetBuf | GetKeys | GetMod | GetSize | GetScale => Some s
  end.

Fixpoint run (cs : list call) (s : state) : option state :=
  match cs with
  | [] => Some s
  | c :: cs => s' ← step c s; run cs s'
  end.

(** A state is reachable when a successful [fenster_bridge_create]
    followed by defined calls leads to it. *)
Inductive reachable : state -> Prop :=
| reach_create m a_fb a_buf a_title title w h s :
    is_int w -> is_int h ->
    fenster_bridge_create m a_fb a_buf a_title title w h = Handle s ->
    reachable s
| reach_step c s s' :
    reachable s -> step c s = Some s' -> reachable s'.

(** *** Observations used in the statements *)

(** The block behind [fb->buf], and its allocated length in bytes. *)
Definition buffer (s : state) : option (list byte) := mem s !! buf (fb s).

Definition buffer_length (s : state) : option Z :=
  (fun blk => Z.of_nat (length blk)) <$> buffer s.

(** The number of pixels requested from [calloc] for a [w] by [h] buffer:
    [(size_t)w * (size_t)h]. *)
Definition pixels (w h : Z) : Z := size_mul (size_t_of_int w) (size_t_of_int h).

(** The window as the library leaves it, stored back into the handle. *)
Definition opened (ev : event) (s : state) : fenster_bridge :=
  set_f (fb s) (fenster_open ev (f (fb s))).2.

Definition pumped (ev : event) (s : state) : fenster_bridge :=
  set_f (fb s) (fenster_loop ev (f (fb s))).2.

(** The request made to [calloc] when a change of size is detected. *)
Definition request (b : fenster_bridge) (m : heap) (a : ptr) : heap * ptr :=
  calloc m a (pixels (phys_width (f b)) (phys_height (f b))) sizeof_uint32.

(** The two buffer pointers are one address. *)
Definition shared (s : state) : Prop := Fenster.buf (f (fb s)) = buf (fb s).

(** The buffer is live and as long as the cached size says. *)
Definition owned (s : state) : Prop :=
  buf (fb s) <> NULL /\
  is_int (prev_width (fb s)) /\ is_int (prev_height (fb s)) /\
  buffer_length s = Some (prev_width (fb s) * prev_height (fb s) * 4).

(** The buffer holds [w * h] pixels and every one of them is 0. *)
Definition zeroed (s : state) (w h : Z) : Prop :=
  exists blk,
    buffer s = Some blk /\
    Z.of_nat (length blk) = w * h * 4 /\
    forall i, (i < Z.to_nat (w * h))%nat -> pixel_at blk i = Some 0.

(** The physical size recorded in the window state. *)
Definition phys_size (s : state) : Z * Z :=
  (phys_width (f (fb s)), phys_height (f (fb s))).

(** [steady d cs s]: the calls [cs] are all defined from [s] on and the
    physical size is [d] after each of them. *)
Fixpoint steady (d : Z * Z) (cs : list call) (s : state) : Prop :=
  match cs with
  | [] => True
  | c :: cs =>
      match step c s with
      | Some s' => phys_size s' = d /\ steady d cs s'
      | None => False
      end
  end.

(** *** Sessions on a given heap *)

(** [session m0 str s]: the handle was created on the heap [m0] with the
    title [str], and defined calls have led to [s]. *)
Inductive session (m0 : heap) (str : list byte) : state -> Prop :=
| session_create a_fb a_buf a_title w h s :
    fenster_bridge_create m0 a_fb a_buf a_title str w h = Handle s ->
    session m0 str s
| session_step c s s' :
    session m0 str s -> step c s = Some s' -> session m0 str s'.

(** What the handle owns on top of [m0]: the handle record, the pixel
    buffer and, unless its duplication failed, the title copy.  The three
    blocks are live and apart, the title copy holds the title, and every
    other address is as in [m0]. *)
Definition footprint (m0 : heap) (str : list byte) (s : state) : Prop :=
  self s <> NULL /\ buf (fb s) <> NULL /\ self s <> buf (fb s) /\
  title_copy (fb s) <> self s /\ title_copy (fb s) <> buf (fb s) /\
  m0 !! self s = None /\ m0 !! buf (fb s) = None /\
  is_Some (mem s !! self s) /\ is_Some (mem s !! buf (fb s)) /\
  (title_copy (fb s) = NULL \/
   m0 !! title_copy (fb s) = None /\
   mem s !! title_copy (fb s) = Some (str ++ [x00])) /\
  (forall q, q <> self s -> q <> buf (fb s) ->
             q <> title_copy (fb s) \/ title_copy (fb s) = NULL ->
             mem s !! q = m0 !! q).

(** [reallocates c s]: the call is an open or a loop that, from [s],
    detects a change of the physical size and obtains the new buffer. *)
Definition reallocates (c : call) (s : state) : Prop :=
  match c with
  | Open ev a =>
      (fenster_open ev (f (fb s))).1 = 0 /\
      does_differ (opened ev s) = true /\
      (request (opened ev s) (mem s) a).2 <> NULL
  | Loop ev a =>
      does_differ (pumped ev s) = true /\
      (request (pumped ev s) (mem s) a).2 <> NULL
  | _ => False
  end.

(** The window state the library hands back in an open or a loop. *)
Definition handed_back (c : call) (s : state) : option window :=
  match c with
  | Open ev _ => Some (fenster_open ev (f (fb s))).2
  | Loop ev _ => Some (fenster_loop ev (f (fb s))).2
  | _ => None
  end.

End WithLibrary.
End Bridge.


(** ** A small window library to run the model on

    The library of this module reports, at every call, the status, the
    physical size and the scale factor that the window system hands it. *)

Module Demo.
Import CInt Mem Fenster Bridge.

(** Storing a value into an [int] member. *)
Definition to_int32 (z : Z) : Z := (z + 2 ^ 31) mod 2 ^ 32 - 2 ^ 31.

Record report : Type := {
  status : Z;
  phys : Z * Z;
  factor : Float32.float
}.

Definition present (r : report) (w : fenster unit (Z * Z * Z))
  : fenster unit (Z * Z * Z) :=
  let w := with_phys_width w (to_int32 (phys r).1) in
  let w := with_phys_height w (to_int32 (phys r).2) in
  with_scale w (factor r).

#[export] Instance library : Library := {|
  event := report;
  platform := unit;
  ximage := Z * Z * Z;
  platform_zero := tt;
  fenster_open r w := (status r, present r w);
  fenster_loop r w := (status r, present r w);
  fenster_close w := w;
  XCreateImage _ data w h := Some (data, w, h);
  x11 := true;
  sizeof_fenster_bridge := 1144
|}.

Definition two : Float32.float := S754_finite false 8388608 (-22).


(** The window system reports a 4x3 window at scale 1, the same window on a
    display of twice the density, and a failure to connect. *)
Definition plain : report :=
  {| status := 0; phys := (4, 3); factor := Float32.one |}.
Definition dense : report :=
  {| status := 0; phys := (8, 6); factor := two |}.
Definition refused : report :=
  {| status := -1; phys := (0, 0); factor := Float32.zero |}.

Definition the_title : list byte := [x69; x6e; x6b].

(** [fenster_bridge_create("ink", 4, 3)] on the empty heap, the allocator
    answering 16, 2048 and 4096. *)
Definition made : created :=
  fenster_bridge_create ∅ 16 2048 4096 the_title 4 3.

Definition s0 : state :=
  let w :=
    {| title := 4096; width := 4; height := 3; Fenster.buf := 2048;
       keys := replicate 256 0; mod_ := 0; phys_width := 0;
       phys_height := 0; scale := Float32.zero; img := None; rest := tt |} in
  {| mem := <[4096 := the_title ++ [x00]]>
              (<[2048 := replicate 48 x00]>
                 (<[16 := replicate 1144 x00]> ∅));
     self := 16;
     fb := {| f := w; Bridge.buf := 2048; title_copy := 4096; resized := 0;
              prev_width := 4; prev_height := 3;
              prev_scale := Float32.one |} |}.

(** The handle after [fenster_bridge_set_scale(fb, 2.0f)]. *)
Definition scaled_up : state :=
  update s0 (mem s0)
    (set_f (fb s0)
       (with_phys_height (with_phys_width (with_scale (f (fb s0)) two) 8) 6)).

(** The handle after a pump on the dense display, the allocator answering
    8192, and after the same pump with the allocator out of memory. *)
Definition resized_up : state := (fenster_bridge_loop dense 8192 s0).2.
Definition starved : state := (fenster_bridge_loop dense NULL s0).2.

(** The handle after a successful open on the plain display. *)
Definition shown : state := (fenster_bridge_open plain 8192 s0).2.

(** Calls made after the resize: a pump back on the plain display, a read
    of the logical size and a change of scale. *)
Definition later_calls : list call :=
  [Loop plain 12288; GetSize; SetScale two].

End Demo.

Import CInt Mem Fenster Bridge.

(** * Properties *)

Import CInt Mem Fenster Bridge.

(** ** The heap primitives *)

Lemma calloc_cases (m : gmap Z (list byte)) a n sz m' p :
  calloc m a n sz = (m', p) ->
  (p = NULL /\ m' = m) \/
  (p = a /\ a <> NULL /\ m !! a = None /\ n * sz < SIZE_MOD /\
   m' = <[a := replicate (Z.to_nat (n * sz)) x00]> m).
Proof.
  unfold calloc, can_place. intros H.
  destruct (a =? NULL) eqn:Ea; simpl in H.
  { left. by inversion H. }
  case_bool_decide as Hm; simpl in H.
  2: { left. by inversion H. }
  destruct (n * sz <? SIZE_MOD) eqn:En.
  2: { left. by inversion H. }
  right. inversion H; subst. repeat split; auto; lia.
Qed.

Lemma calloc_null (m : gmap Z (list byte)) a n sz :
  (calloc m a n sz).2 = NULL -> (calloc m a n sz).1 = m.
Proof.
  destruct (calloc m a n sz) as [m' p] eqn:E. simpl. intros ->.
  apply calloc_cases in E as [[_ ->] | (<- & Hn & _)]; [done | by destruct Hn].
Qed.

Lemma strdup_cases (m : gmap Z (list byte)) a str m' p :
  strdup m a str = (m', p) ->
  (p = NULL /\ m' = m) \/
  (p = a /\ a <> NULL /\ m !! a = None /\ m' = <[a := str ++ [x00]]> m).
Proof.
  unfold strdup, can_place. intros H.
  destruct (a =? NULL) eqn:Ea; simpl in H.
  { left. by inversion H. }
  case_bool_decide as Hm; simpl in H.
  2: { left. by inversion H. }
  right. inversion H; subst. repeat split; auto; lia.
Qed.

Lemma strdup_granted (m : gmap Z (list byte)) a str :
  a <> NULL -> m !! a = None ->
  strdup m a str = (<[a := str ++ [x00]]> m, a).
Proof.
  intros Ha Hm. unfold strdup, can_place.
  destruct (a =? NULL) eqn:E; [lia |].
  by rewrite bool_decide_eq_true_2.
Qed.

Lemma strdup_refused (m : gmap Z (list byte)) a str :
  a = NULL \/ is_Some (m !! a) -> strdup m a str = (m, NULL).
Proof.
  intros H. unfold strdup, can_place.
  destruct (a =? NULL) eqn:E; [done |].
  destruct H as [-> | [blk Hm]]; [done |].
  rewrite bool_decide_eq_false_2; [done |]. by rewrite Hm.
Qed.

Lemma free_live_other (m : gmap Z (list byte)) p q :
  p <> q -> free m p !! q = m !! q.
Proof.
  intros Hpq. unfold free. destruct (p =? NULL); [done |].
  by rewrite lookup_delete_ne.
Qed.

Lemma free_fresh (m : gmap Z (list byte)) a blk :
  a <> NULL -> m !! a = None -> free (<[a := blk]> m) a = m.
Proof.
  intros Ha Hm. unfold free.
  destruct (a =? NULL) eqn:E; [lia |].
  by rewrite delete_insert_eq, delete_id.
Qed.

(** For [int] dimensions, a request that [calloc] does not refuse as an
    overflow is for exactly [w * h] pixels: the wrap-around of the
    [size_t] product never goes unnoticed. *)
Lemma pixels_exact w h :
  is_int w -> is_int h ->
  pixels w h * sizeof_uint32 < SIZE_MOD ->
  pixels w h = w * h /\ 0 <= w * h.
Proof.
  unfold is_int, INT_MIN, INT_MAX, pixels, size_mul, size_t_of_int,
    sizeof_uint32, SIZE_MOD.
  intros Hw Hh. rewrite <- Z.mul_mod by lia.
  assert (- 2 ^ 62 <= w * h <= 2 ^ 62) as Hb by nia.
  destruct (Z_lt_le_dec (w * h) 0) as [Hneg | Hpos].
  - rewrite <- (Z.mod_add (w * h) 1 (2 ^ 64)) by lia.
    rewrite Z.mod_small by lia. lia.
  - rewrite Z.mod_small by lia. lia.
Qed.

Lemma length_zero_block n :
  0 <= n -> Z.of_nat (length (replicate (Z.to_nat n) x00)) = n.
Proof. intros Hn. rewrite length_replicate. lia. Qed.

Lemma pixel_at_zero_block n i :
  (4 * i + 3 < n)%nat -> pixel_at (replicate n x00) i = Some 0.
Proof.
  intros Hi. unfold pixel_at.
  rewrite !lookup_replicate_2 by lia. reflexivity.
Qed.

(** ** The paths through [fenster_bridge_open] and [fenster_bridge_loop] *)

Lemma does_differ_true `{L : Library} (b : fenster_bridge) :
  does_differ b = true <->
  phys_width (f b) <> prev_width b \/ phys_height (f b) <> prev_height b.
Proof.
  unfold does_differ. rewrite orb_true_iff, !negb_true_iff, !Z.eqb_neq.
  reflexivity.
Qed.

Lemma does_differ_false `{L : Library} (b : fenster_bridge) :
  does_differ b = false <->
  phys_width (f b) = prev_width b /\ phys_height (f b) = prev_height b.
Proof.
  unfold does_differ. rewrite orb_false_iff, !negb_false_iff, !Z.eqb_eq.
  reflexivity.
Qed.

Section Paths.
Context {L : Library}.
Implicit Types (s : state) (ev : event) (a : Z).

Lemma open_refused ev a s :
  (fenster_open ev (f (fb s))).1 <> 0 ->
  fenster_bridge_open ev a s =
    ((fenster_open ev (f (fb s))).1, update s (mem s) (opened ev s)).
Proof.
  intros Hr. unfold fenster_bridge_open, opened.
  destruct (fenster_open ev (f (fb s))) as [r w]; simpl in *.
  destruct (r =? 0) eqn:E; [lia | done].
Qed.

Lemma open_in_sync ev a s :
  (fenster_open ev (f (fb s))).1 = 0 ->
  does_differ (opened ev s) = false ->
  fenster_bridge_open ev a s =
    (0, update s (mem s)
          (set_prev_scale (opened ev s) (scale (f (opened ev s))))).
Proof.
  unfold fenster_bridge_open, opened.
  destruct (fenster_open ev (f (fb s))) as [r w]; simpl.
  intros -> Hd. simpl. by rewrite Hd.
Qed.

Lemma open_no_memory ev a s :
  (fenster_open ev (f (fb s))).1 = 0 ->
  does_differ (opened ev s) = true ->
  (request (opened ev s) (mem s) a).2 = NULL ->
  fenster_bridge_open ev a s =
    (0, update s (mem s)
          (set_prev_scale (opened ev s) (scale (f (opened ev s))))).
Proof.
  unfold fenster_bridge_open, opened, request, pixels.
  destruct (fenster_open ev (f (fb s))) as [r w]; simpl.
  intros -> Hd. simpl. rewrite Hd. intros Hp.
  pose proof (calloc_null _ _ _ _ Hp) as Hm.
  destruct (calloc _ _ _ _) as [m p]; simpl in *; subst. done.
Qed.

Lemma open_reallocated ev a s :
  (fenster_open ev (f (fb s))).1 = 0 ->
  does_differ (opened ev s) = true ->
  (request (opened ev s) (mem s) a).2 <> NULL ->
  fenster_bridge_open ev a s =
    (0, update s (free (request (opened ev s) (mem s) a).1 (buf (fb s)))
          {| f := with_buf (f (opened ev s)) a;
             buf := a;
             title_copy := title_copy (fb s);
             resized := resized (fb s);
             prev_width := phys_width (f (opened ev s));
             prev_height := phys_height (f (opened ev s));
             prev_scale := scale (f (opened ev s)) |}).
Proof.
  unfold fenster_bridge_open, opened, request, pixels.
  destruct (fenster_open ev (f (fb s))) as [r w]; simpl.
  intros -> Hd. simpl. rewrite Hd.
  destruct (calloc _ _ _ _) as [m p] eqn:E; simpl. intros Hp.
  apply calloc_cases in E as [[-> _] | (-> & _)]; [done |].
  destruct (a =? NULL) eqn:Ea; [lia |]. done.
Qed.

Lemma loop_in_sync ev a s :
  does_differ (pumped ev s) = false ->
  fenster_bridge_loop ev a s =
    ((fenster_loop ev (f (fb s))).1, update s (mem s) (pumped ev s)).
Proof.
  unfold fenster_bridge_loop, pumped.
  destruct (fenster_loop ev (f (fb s))) as [r w]; simpl.
  intros Hd. by rewrite Hd.
Qed.

Lemma loop_no_memory ev a s :
  does_differ (pumped ev s) = true ->
  (request (pumped ev s) (mem s) a).2 = NULL ->
  fenster_bridge_loop ev a s =
    ((fenster_loop ev (f (fb s))).1, update s (mem s) (pumped ev s)).
Proof.
  unfold fenster_bridge_loop, pumped, request, pixels.
  destruct (fenster_loop ev (f (fb s))) as [r w]; simpl.
  intros Hd. rewrite Hd. intros Hp.
  pose proof (calloc_null _ _ _ _ Hp) as Hm.
  destruct (calloc _ _ _ _) as [m p]; simpl in *; subst. done.
Qed.

Lemma loop_reallocated ev a s :
  does_differ (pumped ev s) = true ->
  (request (pumped ev s) (mem s) a).2 <> NULL ->
  fenster_bridge_loop ev a s =
    ((fenster_loop ev (f (fb s))).1,
     update s (free (request (pumped ev s) (mem s) a).1 (buf (fb s)))
       {| f := (if x11
                then with_img (with_buf (f (pumped ev s)) a)
                       (XCreateImage (rest (f (pumped ev s))) a
                          (phys_width (f (pumped ev s)))
                          (phys_height (f (pumped ev s))))
                else with_buf (f (pumped ev s)) a);
          buf := a;
          title_copy := title_copy (fb s);
          resized := 1;
          prev_width := phys_width (f (pumped ev s));
          prev_height := phys_height (f (pumped ev s));
          prev_scale := scale (f (pumped ev s)) |}).
Proof.
  unfold fenster_bridge_loop, pumped, request, pixels.
  destruct (fenster_loop ev (f (fb s))) as [r w]; simpl.
  intros Hd. rewrite Hd.
  destruct (calloc _ _ _ _) as [m p] eqn:E; simpl. intros Hp.
  apply calloc_cases in E as [[-> _] | (-> & _)]; [done |].
  destruct (a =? NULL) eqn:Ea; [lia |]. simpl.
  destruct x11; done.
Qed.

End Paths.

(** ** Invariants of a live handle *)

Section Invariants.
Context {L : Library}.
Implicit Types (s : state) (ev : event) (a : Z).

Lemma create_cases m a_fb a_buf a_title str w h :
  let m1 := <[a_fb := replicate (Z.to_nat (1 * sizeof_fenster_bridge)) x00]> m in
  let m2 := <[a_buf := replicate (Z.to_nat (pixels w h * sizeof_uint32)) x00]> m1 in
  (fenster_bridge_create m a_fb a_buf a_title str w h = Null m /\
   ((calloc m a_fb 1 sizeof_fenster_bridge).2 = NULL \/
    (calloc m a_fb 1 sizeof_fenster_bridge).2 = a_fb /\ a_fb <> NULL /\
    (calloc m1 a_buf (pixels w h) sizeof_uint32).2 = NULL)) \/
  (exists t m3,
     (calloc m a_fb 1 sizeof_fenster_bridge).2 = a_fb /\ a_fb <> NULL /\
     (calloc m1 a_buf (pixels w h) sizeof_uint32).2 = a_buf /\
     a_buf <> NULL /\ a_buf <> a_fb /\
     pixels w h * sizeof_uint32 < SIZE_MOD /\
     strdup m2 a_title str = (m3, t) /\
     fenster_bridge_create m a_fb a_buf a_title str w h =
       Handle {| mem := m3; self := a_fb;
                 fb := {| f := {| title := t; width := w; height := h;
                                  Fenster.buf := a_buf;
                                  keys := replicate 256 0; mod_ := 0;
                                  phys_width := 0; phys_height := 0;
                                  scale := Float32.zero; img := None;
                                  rest := platform_zero |};
                          buf := a_buf; title_copy := t; resized := 0;
                          prev_width := w; prev_height := h;
                          prev_scale := Float32.one |} |}).
Proof.
  intros m1 m2. unfold fenster_bridge_create. fold (pixels w h).
  destruct (calloc m a_fb 1 sizeof_fenster_bridge) as [m1' p] eqn:E1.
  apply calloc_cases in E1 as [[-> ->] | (-> & Hp & Hfresh & _ & ->)].
  { left. simpl. auto. }
  destruct (a_fb =? NULL) eqn:Ep; [lia |]. fold m1.
  destruct (calloc m1 a_buf (pixels w h) sizeof_uint32) as [m2' b] eqn:E2.
  apply calloc_cases in E2 as [[-> ->] | (-> & Hb & Hfresh2 & Hsz & ->)].
  { left. simpl. split; [| auto]. f_equal. by apply free_fresh. }
  destruct (a_buf =? NULL) eqn:Eb; [lia |]. fold m2.
  right. destruct (strdup m2 a_title str) as [m3 t] eqn:E3.
  exists t, m3. simpl. repeat split; auto.
  intros ->. unfold m1 in Hfresh2. by rewrite lookup_insert_eq in Hfresh2.
Qed.

Lemma create_shared m a_fb a_buf a_title str w h s :
  fenster_bridge_create m a_fb a_buf a_title str w h = Handle s -> shared s.
Proof.
  intros H.
  destruct (create_cases m a_fb a_buf a_title str w h)
    as [[E _] | (t & m3 & _ & _ & _ & _ & _ & _ & _ & E)];
    rewrite E in H; [done |].
  inversion H; subst. reflexivity.
Qed.

Lemma create_buffer m a_fb a_buf a_title str w h s :
  fenster_bridge_create m a_fb a_buf a_title str w h = Handle s ->
  pixels w h * sizeof_uint32 < SIZE_MOD /\
  buffer s = Some (replicate (Z.to_nat (pixels w h * sizeof_uint32)) x00).
Proof.
  intros H.
  destruct (create_cases m a_fb a_buf a_title str w h)
    as [[E _] | (t & m3 & _ & _ & _ & Hb & _ & Hsz & Ht & E)];
    rewrite E in H; [done |].
  inversion H; subst. split; [done |]. unfold buffer; simpl.
  apply strdup_cases in Ht as [[_ ->] | (_ & _ & Hfresh & ->)].
  - by rewrite lookup_insert_eq.
  - rewrite lookup_insert_ne; [by rewrite lookup_insert_eq |].
    intros ->. by rewrite lookup_insert_eq in Hfresh.
Qed.

Lemma create_owned m a_fb a_buf a_title str w h s :
  is_int w -> is_int h ->
  fenster_bridge_create m a_fb a_buf a_title str w h = Handle s -> owned s.
Proof.
  intros Hw Hh H.
  destruct (create_buffer _ _ _ _ _ _ _ _ H) as [Hsz Hblk].
  destruct (pixels_exact w h Hw Hh Hsz) as [Hpx Hpos].
  destruct (create_cases m a_fb a_buf a_title str w h)
    as [[E _] | (t & m3 & _ & _ & _ & Hb & _ & _ & _ & E)];
    rewrite E in H; [done |].
  unfold owned, buffer_length. rewrite Hblk.
  inversion H; subst; simpl. repeat split; try apply Hw; try apply Hh;
    [done |].
  rewrite length_zero_block; unfold sizeof_uint32 in *; [f_equal |]; lia.
Qed.

(** A reallocation leaves exactly the new, zeroed block behind [a], and
    the old block is gone. *)
Lemma request_installs (b : fenster_bridge) s a :
  is_int (phys_width (f b)) -> is_int (phys_height (f b)) ->
  buf (fb s) <> NULL -> is_Some (buffer s) ->
  (request b (mem s) a).2 <> NULL ->
  let n := phys_width (f b) * phys_height (f b) * 4 in
  let m := free (request b (mem s) a).1 (buf (fb s)) in
  0 <= n /\ a <> NULL /\ a <> buf (fb s) /\
  m !! a = Some (replicate (Z.to_nat n) x00) /\
  m !! buf (fb s) = None /\
  (forall q, q <> a -> q <> buf (fb s) -> m !! q = mem s !! q).
Proof.
  intros Hw Hh Hnn [old Hold] Hp n. unfold request in *.
  unfold buffer in Hold.
  destruct (calloc _ _ _ _) as [m p] eqn:E; simpl in *.
  apply calloc_cases in E as [[-> _] | (-> & Ha & Hfresh & Hsz & ->)];
    [done |].
  destruct (pixels_exact _ _ Hw Hh Hsz) as [Hpx Hpos].
  assert (a <> buf (fb s)) as Hne by (intros ->; congruence).
  rewrite Hpx. unfold sizeof_uint32.
  split; [subst n; lia |]. do 2 (split; [done |]).
  split; [| split].
  - rewrite free_live_other by done. by rewrite lookup_insert_eq.
  - unfold free. destruct (buf (fb s) =? NULL) eqn:E0; [lia |].
    by rewrite lookup_delete_eq.
  - intros q Hqa Hqb. rewrite free_live_other by done.
    by rewrite lookup_insert_ne.
Qed.

Lemma open_paths ev a s (P : Z * state -> Prop) :
  ((fenster_open ev (f (fb s))).1 <> 0 ->
   P ((fenster_open ev (f (fb s))).1, update s (mem s) (opened ev s))) ->
  ((fenster_open ev (f (fb s))).1 = 0 ->
   does_differ (opened ev s) = false \/
   does_differ (opened ev s) = true /\
   (request (opened ev s) (mem s) a).2 = NULL ->
   P (0, update s (mem s)
           (set_prev_scale (opened ev s) (scale (f (opened ev s)))))) ->
  ((fenster_open ev (f (fb s))).1 = 0 ->
   does_differ (opened ev s) = true ->
   (request (opened ev s) (mem s) a).2 <> NULL ->
   P (0, update s (free (request (opened ev s) (mem s) a).1 (buf (fb s)))
           {| f := with_buf (f (opened ev s)) a;
              buf := a;
              title_copy := title_copy (fb s);
              resized := resized (fb s);
              prev_width := phys_width (f (opened ev s));
              prev_height := phys_height (f (opened ev s));
              prev_scale := scale (f (opened ev s)) |})) ->
  P (fenster_bridge_open ev a s).
Proof.
  intros Hrefused Hkept Hnew.
  destruct (Z.eq_dec (fenster_open ev (f (fb s))).1 0) as [Hr | Hr].
  2: { rewrite open_refused by done. auto. }
  destruct (does_differ (opened ev s)) eqn:Hd.
  2: { rewrite open_in_sync by done. auto. }
  destruct (Z.eq_dec (request (opened ev s) (mem s) a).2 NULL) as [Hp | Hp].
  - rewrite open_no_memory by done. auto.
  - rewrite open_reallocated by done. auto.
Qed.

Lemma loop_paths ev a s (P : Z * state -> Prop) :
  (does_differ (pumped ev s) = false \/
   does_differ (pumped ev s) = true /\
   (request (pumped ev s) (mem s) a).2 = NULL ->
   P ((fenster_loop ev (f (fb s))).1, update s (mem s) (pumped ev s))) ->
  (does_differ (pumped ev s) = true ->
   (request (pumped ev s) (mem s) a).2 <> NULL ->
   P ((fenster_loop ev (f (fb s))).1,
      update s (free (request (pumped ev s) (mem s) a).1 (buf (fb s)))
        {| f := (if x11
                 then with_img (with_buf (f (pumped ev s)) a)
                        (XCreateImage (rest (f (pumped ev s))) a
                           (phys_width (f (pumped ev s)))
                           (phys_height (f (pumped ev s))))
                 else with_buf (f (pumped ev s)) a);
           buf := a;
           title_copy := title_copy (fb s);
           resized := 1;
           prev_width := phys_width (f (pumped ev s));
           prev_height := phys_height (f (pumped ev s));
           prev_scale := scale (f (pumped ev s)) |})) ->
  P (fenster_bridge_loop ev a s).
Proof.
  intros Hkept Hnew.
  destruct (does_differ (pumped ev s)) eqn:Hd.
  2: { rewrite loop_in_sync by done. auto. }
  destruct (Z.eq_dec (request (pumped ev s) (mem s) a).2 NULL) as [Hp | Hp].
  - rewrite loop_no_memory by done. auto.
  - rewrite loop_reallocated by done. auto.
Qed.

Lemma copy_buf_cases s src n s' :
  fenster_bridge_copy_buf s src n = Some s' ->
  exists old,
    buffer s = Some old /\
    size_t_of_int n <= Z.of_nat (length old) /\
    size_t_of_int n <= Z.of_nat (length src) /\
    s' = update s (<[buf (fb s) :=
                       take (Z.to_nat (size_t_of_int n)) src
                       ++ drop (Z.to_nat (size_t_of_int n)) old]> (mem s))
           (fb s).
Proof.
  unfold fenster_bridge_copy_buf, memcpy, buffer.
  destruct (mem s !! buf (fb s)) as [old |]; simpl; [| done].
  destruct (size_t_of_int n <=? Z.of_nat (length old)) eqn:E1; simpl;
    [| done].
  destruct (size_t_of_int n <=? Z.of_nat (length src)) eqn:E2; simpl;
    [| done].
  intros [= <-]. exists old. repeat split; auto; lia.
Qed.

Lemma set_scale_cases s x s' :
  fenster_bridge_set_scale s x = Some s' ->
  exists pw ph,
    scaled (width (f (fb s))) x = Some pw /\
    scaled (height (f (fb s))) x = Some ph /\
    s' = update s (mem s)
           (set_f (fb s)
              (with_phys_height
                 (with_phys_width (with_scale (f (fb s)) x) pw) ph)).
Proof.
  unfold fenster_bridge_set_scale. simpl.
  destruct (scaled (width (f (fb s))) x) as [pw |]; simpl; [| done].
  destruct (scaled (height (f (fb s))) x) as [ph |]; simpl; [| done].
  intros [= <-]. by exists pw, ph.
Qed.

Lemma step_shared (HL : LibraryOk L) c s s' :
  shared s -> step c s = Some s' -> shared s'.
Proof.
  unfold shared. intros Hs Hc. destruct c; simpl in Hc.
  - inversion Hc; subst; clear Hc.
    apply (open_paths ev a s (fun r => Fenster.buf (f (fb r.2)) = buf (fb r.2)));
      intros; simpl; try done;
      by rewrite (open_keeps_buf _ HL).
  - inversion Hc; subst; clear Hc.
    apply (loop_paths ev a s (fun r => Fenster.buf (f (fb r.2)) = buf (fb r.2)));
      intros; simpl.
    + by rewrite (loop_keeps_buf _ HL).
    + by destruct x11.
  - by inversion Hc; subst.
  - apply copy_buf_cases in Hc as (old & _ & _ & _ & ->). done.
  - by inversion Hc; subst.
  - by inversion Hc; subst.
  - by inversion Hc; subst.
  - by inversion Hc; subst.
  - by inversion Hc; subst.
  - apply set_scale_cases in Hc as (pw & ph & _ & _ & ->). done.
Qed.

Lemma owned_is_Some s : owned s -> is_Some (buffer s).
Proof.
  intros (_ & _ & _ & Hlen). unfold buffer_length in Hlen.
  destruct (buffer s); [eauto | done].
Qed.

Lemma owned_same_buffer s m b :
  m !! buf b = mem s !! buf (fb s) ->
  buf b = buf (fb s) ->
  prev_width b = prev_width (fb s) -> prev_height b = prev_height (fb s) ->
  owned s -> owned (update s m b).
Proof.
  unfold owned, buffer_length, buffer; simpl.
  intros -> -> -> ->. done.
Qed.

Lemma owned_new_buffer s m b :
  buf b <> NULL -> is_int (prev_width b) -> is_int (prev_height b) ->
  0 <= prev_width b * prev_height b * 4 ->
  m !! buf b
    = Some (replicate (Z.to_nat (prev_width b * prev_height b * 4)) x00) ->
  owned (update s m b).
Proof.
  unfold owned, buffer_length, buffer; simpl.
  intros Hnn Hw Hh Hn ->; simpl. by rewrite length_zero_block.
Qed.

Lemma step_owned (HL : LibraryOk L) c s s' :
  owned s -> step c s = Some s' -> owned s'.
Proof.
  intros Ho Hc. pose proof (owned_is_Some s Ho) as Hlive.
  pose proof Ho as (Hnn & Hw & Hh & Hlen).
  destruct c; simpl in Hc;
    try (inversion Hc; subst;
         first [exact Ho | by apply (owned_same_buffer s)]).
  - inversion Hc; subst; clear Hc.
    apply (open_paths ev a s (fun r => owned r.2)); simpl;
      try (intros; by apply owned_same_buffer).
    intros _ _ Hp.
    destruct (open_phys_int _ HL ev (f (fb s))) as [Hpw Hph].
    pose proof (request_installs (opened ev s) s a Hpw Hph Hnn Hlive Hp)
      as Hri.
    cbv zeta in Hri. destruct Hri as (Hn & Ha & _ & Hnew & _).
    by apply owned_new_buffer.
  - inversion Hc; subst; clear Hc.
    apply (loop_paths ev a s (fun r => owned r.2)); simpl;
      try (intros; by apply owned_same_buffer).
    intros _ Hp.
    destruct (loop_phys_int _ HL ev (f (fb s))) as [Hpw Hph].
    pose proof (request_installs (pumped ev s) s a Hpw Hph Hnn Hlive Hp)
      as Hri.
    cbv zeta in Hri. destruct Hri as (Hn & Ha & _ & Hnew & _).
    by apply owned_new_buffer.
  - apply copy_buf_cases in Hc as (old & Hold & Hn1 & Hn2 & ->).
    unfold owned, buffer_length, buffer in *; simpl.
    rewrite Hold in Hlen. rewrite lookup_insert_eq. simpl in *.
    do 3 (split; [done |]).
    transitivity (Some (Z.of_nat (length old))); [f_equal | exact Hlen].
    rewrite length_app, length_take, length_drop. lia.
  - apply set_scale_cases in Hc as (pw & ph & _ & _ & ->).
    by apply owned_same_buffer.
Qed.

(** A successful open, and a loop, leave the cache in agreement with the
    physical dimensions unless their allocation fails. *)
Lemma open_resyncs ev a s :
  (fenster_open ev (f (fb s))).1 = 0 ->
  (does_differ (opened ev s) = true ->
   (request (opened ev s) (mem s) a).2 <> NULL) ->
  does_differ (fb (fenster_bridge_open ev a s).2) = false.
Proof.
  intros Hr Hok. destruct (does_differ (opened ev s)) eqn:Hd.
  - rewrite open_reallocated by auto. unfold does_differ; simpl.
    by rewrite !Z.eqb_refl.
  - rewrite open_in_sync by done. exact Hd.
Qed.

Lemma loop_resyncs ev a s :
  (does_differ (pumped ev s) = true ->
   (request (pumped ev s) (mem s) a).2 <> NULL) ->
  does_differ (fb (fenster_bridge_loop ev a s).2) = false.
Proof.
  intros Hok. destruct (does_differ (pumped ev s)) eqn:Hd.
  - rewrite loop_reallocated by auto. unfold does_differ; simpl.
    destruct x11; simpl; by rewrite !Z.eqb_refl.
  - rewrite loop_in_sync by done. exact Hd.
Qed.

Lemma length_by_phys s :
  owned s -> does_differ (fb s) = false ->
  buffer_length s
    = Some (phys_width (f (fb s)) * phys_height (f (fb s)) * 4).
Proof.
  intros (_ & _ & _ & Hlen) Hd.
  apply does_differ_false in Hd as [Hw Hh]. by rewrite Hw, Hh.
Qed.

Lemma reachable_shared (HL : LibraryOk L) s : reachable s -> shared s.
Proof.
  induction 1 as [m a_fb a_buf a_title str w h s _ _ Hc | c s s' _ IH Hc].
  - eapply create_shared, Hc.
  - eapply step_shared; eauto.
Qed.

Lemma reachable_owned (HL : LibraryOk L) s : reachable s -> owned s.
Proof.
  induction 1 as [m a_fb a_buf a_title str w h s Hw Hh Hc | c s s' _ IH Hc].
  - exact (create_owned _ _ _ _ _ _ _ _ Hw Hh Hc).
  - eapply step_owned; eauto.
Qed.

End Invariants.

(** ** The demonstration library *)

Lemma to_int32_is_int z : is_int (Demo.to_int32 z).
Proof.
  unfold is_int, Demo.to_int32, INT_MIN, INT_MAX.
  pose proof (Z.mod_pos_bound (z + 2 ^ 31) (2 ^ 32)). lia.
Qed.

Lemma demo_library_ok : LibraryOk Demo.library.
Proof.
  split; intros ev w; simpl; auto using to_int32_is_int.
Qed.

Lemma demo_made : Demo.made = Handle Demo.s0.
Proof. reflexivity. Qed.

Lemma demo_s0_reachable : reachable Demo.s0.
Proof.
  apply (reach_create ∅ 16 2048 4096 Demo.the_title 4 3);
    [unfold is_int, INT_MIN, INT_MAX; lia .. | exact demo_made].
Qed.

Lemma demo_scaled_up_reachable : reachable Demo.scaled_up.
Proof.
  apply (reach_step (SetScale (L := Demo.library) Demo.two) Demo.s0);
    [exact demo_s0_reachable | reflexivity].
Qed.

Lemma demo_resized_up_reachable : reachable Demo.resized_up.
Proof.
  apply (reach_step (Loop (L := Demo.library) Demo.dense 8192) Demo.s0);
    [exact demo_s0_reachable | reflexivity].
Qed.

Lemma demo_starved_reachable : reachable Demo.starved.
Proof.
  apply (reach_step (Loop (L := Demo.library) Demo.dense NULL) Demo.s0);
    [exact demo_s0_reachable | reflexivity].
Qed.

Lemma demo_shown_reachable : reachable Demo.shown.
Proof.
  apply (reach_step (Open (L := Demo.library) Demo.plain 8192) Demo.s0);
    [exact demo_s0_reachable | reflexivity].
Qed.

(** ** The two buffer pointers *)

(** C1: in every reachable state of a handle (after create, and after any
    sequence of open, loop, accessor and mutator calls, set_scale
    included) the bridge's buffer pointer [fb->buf] and the window
    library's buffer pointer [fb->f.buf] are the same address, provided the
    library itself leaves its buffer pointer alone. *)
Theorem buffer_pointers_agree `{L : Library} (HL : LibraryOk L) (s : state) :
  reachable s -> Fenster.buf (f (fb s)) = buf (fb s).
Proof.
  induction 1 as [m a_fb a_buf a_title str w h s _ _ Hc | c s s' _ IH Hc].
  - (* create stores the one allocation in both members *)
    exact (create_shared _ _ _ _ _ _ _ _ Hc).
  - (* every call rewires both or neither *)
    exact (step_shared HL c s s' IH Hc).
Qed.

Lemma buffer_pointers_agree_witness :
  LibraryOk Demo.library /\ reachable Demo.resized_up /\
  Fenster.buf (f (fb Demo.resized_up)) = 8192 /\
  Fenster.buf (f (fb Demo.resized_up)) = buf (fb Demo.resized_up).
Proof.
  split; [exact demo_library_ok |].
  split; [exact demo_resized_up_reachable |].
  split; [reflexivity |].
  exact (buffer_pointers_agree demo_library_ok Demo.resized_up
           demo_resized_up_reachable).
Defined.

(** ** The length of the buffer *)

(** The claim of C2 fails after [fenster_bridge_set_scale]: the 4x3 handle
    scaled by 2.0 has physical dimensions 8x6, that is 192 bytes, while its
    buffer is still the 48 bytes allocated by create.  It fails in the same
    way after the allocation-failure path of loop. *)
Lemma buffer_length_phys_counterexample :
  (reachable Demo.scaled_up /\
   buffer_length Demo.scaled_up = Some 48 /\
   phys_width (f (fb Demo.scaled_up)) * phys_height (f (fb Demo.scaled_up)) * 4
     = 192 /\
   buffer_length Demo.scaled_up <>
     Some (phys_width (f (fb Demo.scaled_up))
           * phys_height (f (fb Demo.scaled_up)) * 4)) /\
  (reachable Demo.starved /\
   buffer_length Demo.starved = Some 48 /\
   phys_width (f (fb Demo.starved)) * phys_height (f (fb Demo.starved)) * 4
     = 192 /\
   buffer_length Demo.starved <>
     Some (phys_width (f (fb Demo.starved))
           * phys_height (f (fb Demo.starved)) * 4)).
Proof.
  split.
  - split; [exact demo_scaled_up_reachable |].
    split; [reflexivity |]. split; [reflexivity |]. discriminate.
  - split; [exact demo_starved_reachable |].
    split; [reflexivity |]. split; [reflexivity |]. discriminate.
Qed.

(** C2, amended: in every reachable state the allocated length of the
    pixel buffer is [prev_width * prev_height * 4] bytes, the cached
    dimensions being those of the last allocation that succeeded.  It is
    [phys_width * phys_height * 4] bytes whenever the physical dimensions
    of the window state agree with the cached ones; a successful open and a
    loop bring this about unless their allocation fails. *)
Theorem buffer_length_cached `{L : Library} (HL : LibraryOk L) (s : state) :
  reachable s ->
  buffer_length s = Some (prev_width (fb s) * prev_height (fb s) * 4) /\
  (does_differ (fb s) = false ->
   buffer_length s
     = Some (phys_width (f (fb s)) * phys_height (f (fb s)) * 4)) /\
  (forall (ev : event) (a : Z),
     (fenster_open ev (f (fb s))).1 = 0 ->
     (does_differ (opened ev s) = true ->
      (request (opened ev s) (mem s) a).2 <> NULL) ->
     let s' := (fenster_bridge_open ev a s).2 in
     buffer_length s'
       = Some (phys_width (f (fb s')) * phys_height (f (fb s')) * 4)) /\
  (forall (ev : event) (a : Z),
     (does_differ (pumped ev s) = true ->
      (request (pumped ev s) (mem s) a).2 <> NULL) ->
     let s' := (fenster_bridge_loop ev a s).2 in
     buffer_length s'
       = Some (phys_width (f (fb s')) * phys_height (f (fb s')) * 4)).
Proof.
  intros Hs. pose proof (reachable_owned HL s Hs) as Ho.
  split; [| split; [| split]].
  - (* the invariant on the cached dimensions *)
    by destruct Ho as (_ & _ & _ & Hlen).
  - exact (length_by_phys s Ho).
  - (* the state after open is reachable and in agreement *)
    intros ev a Hr Hok s'. apply length_by_phys.
    + exact (step_owned HL (Open ev a) s s' Ho eq_refl).
    + exact (open_resyncs ev a s Hr Hok).
  - intros ev a Hok s'. apply length_by_phys.
    + exact (step_owned HL (Loop ev a) s s' Ho eq_refl).
    + exact (loop_resyncs ev a s Hok).
Qed.

Lemma buffer_length_cached_witness :
  LibraryOk Demo.library /\ reachable Demo.s0 /\
  buffer_length Demo.s0 = Some (4 * 3 * 4) /\
  buffer_length Demo.resized_up = Some (8 * 6 * 4).
Proof.
  split; [exact demo_library_ok |].
  split; [exact demo_s0_reachable |].
  split.
  - exact (proj1 (buffer_length_cached demo_library_ok Demo.s0
                    demo_s0_reachable)).
  - exact (proj1 (buffer_length_cached demo_library_ok Demo.resized_up
                    demo_resized_up_reachable)).
Defined.

(** ** Open *)

(** C3: when the library's open routine returns a non-zero status,
    [fenster_bridge_open] returns that status and neither reallocates nor
    touches the cache: the heap, the buffer pointer, the cached previous
    width, height and scale (and the flag, the title copy and the handle)
    are unchanged; only the library's own writes to the window state
    remain. *)
Theorem open_failure_is_atomic `{L : Library} (ev : event) (a : Z)
    (s : state) :
  (fenster_open ev (f (fb s))).1 <> 0 ->
  (fenster_bridge_open ev a s).1 = (fenster_open ev (f (fb s))).1 /\
  mem (fenster_bridge_open ev a s).2 = mem s /\
  self (fenster_bridge_open ev a s).2 = self s /\
  buf (fb (fenster_bridge_open ev a s).2) = buf (fb s) /\
  prev_width (fb (fenster_bridge_open ev a s).2) = prev_width (fb s) /\
  prev_height (fb (fenster_bridge_open ev a s).2) = prev_height (fb s) /\
  prev_scale (fb (fenster_bridge_open ev a s).2) = prev_scale (fb s) /\
  resized (fb (fenster_bridge_open ev a s).2) = resized (fb s) /\
  title_copy (fb (fenster_bridge_open ev a s).2) = title_copy (fb s) /\
  f (fb (fenster_bridge_open ev a s).2) = (fenster_open ev (f (fb s))).2.
Proof.
  intros Hr. rewrite open_refused by exact Hr. simpl. repeat split.
Qed.

Lemma open_failure_is_atomic_witness :
  (fenster_open (Library := Demo.library) Demo.refused (f (fb Demo.s0))).1 <> 0 /\
  (fenster_bridge_open (L := Demo.library) Demo.refused 8192 Demo.s0).1 = -1 /\
  mem (fenster_bridge_open (L := Demo.library) Demo.refused 8192 Demo.s0).2 = mem Demo.s0 /\
  buf (fb (fenster_bridge_open (L := Demo.library) Demo.refused 8192 Demo.s0).2) = 2048.
Proof.
  assert ((fenster_open (Library := Demo.library) Demo.refused (f (fb Demo.s0))).1 <> 0) as Hr
    by (simpl; lia).
  split; [exact Hr |].
  destruct (open_failure_is_atomic (L := Demo.library) Demo.refused 8192 Demo.s0 Hr)
    as (H1 & H2 & _ & H3 & _).
  split; [exact H1 |]. split; [exact H2 | exact H3].
Defined.

(** C4: when the library's open succeeds, [fenster_bridge_open] returns 0.
    If the physical dimensions reported by the library differ from the
    cached ones and the allocation succeeds, the buffer is a new block of
    [phys_width * phys_height] pixels, the old block is released, both
    buffer pointers are the new address and the cached dimensions are the
    physical ones; if the allocation fails, the heap, the buffer pointers
    and the cached dimensions are as before, and 0 is returned all the
    same. *)
Theorem open_success `{L : Library} (HL : LibraryOk L)
    (ev : event) (a : Z) (s s' : state) (r : Z) (w : fenster platform ximage) :
  reachable s ->
  fenster_open ev (f (fb s)) = (0, w) ->
  fenster_bridge_open ev a s = (r, s') ->
  r = 0 /\
  (phys_width w <> prev_width (fb s) \/ phys_height w <> prev_height (fb s) ->
   forall m p,
     calloc (mem s) a (pixels (phys_width w) (phys_height w)) sizeof_uint32
       = (m, p) ->
     (p <> NULL ->
      buf (fb s') = p /\ Fenster.buf (f (fb s')) = p /\
      p <> buf (fb s) /\
      buffer_length s' = Some (phys_width w * phys_height w * 4) /\
      mem s' !! buf (fb s) = None /\
      (forall q, q <> p -> q <> buf (fb s) -> mem s' !! q = mem s !! q) /\
      prev_width (fb s') = phys_width w /\
      prev_height (fb s') = phys_height w) /\
     (p = NULL ->
      mem s' = mem s /\
      buf (fb s') = buf (fb s) /\ Fenster.buf (f (fb s')) = buf (fb s) /\
      prev_width (fb s') = prev_width (fb s) /\
      prev_height (fb s') = prev_height (fb s))).
Proof.
  intros Hs Hopen Hrun.
  pose proof (reachable_owned HL s Hs) as Ho.
  pose proof (owned_is_Some s Ho) as Hlive. destruct Ho as (Hnn & _).
  pose proof (reachable_shared HL s Hs) as Hsh. unfold shared in Hsh.
  pose proof (open_keeps_buf _ HL ev (f (fb s))) as Hk.
  destruct (open_phys_int _ HL ev (f (fb s))) as [Hpw Hph].
  pose proof (open_in_sync ev a s) as Psync.
  pose proof (open_no_memory ev a s) as Pkeep.
  pose proof (open_reallocated ev a s) as Pnew.
  pose proof (request_installs (opened ev s) s a) as Hri.
  pose proof (does_differ_true (opened ev s)) as Hdt.
  unfold opened, request in *. rewrite Hopen in *. simpl in *.
  split.
  { destruct (does_differ (set_f (fb s) w)) eqn:Hd.
    - destruct (Z.eq_dec
                  (calloc (mem s) a (pixels (phys_width w) (phys_height w))
                     sizeof_uint32).2 NULL) as [Hp | Hp].
      + rewrite Pkeep in Hrun by done. by inversion Hrun.
      + rewrite Pnew in Hrun by done. by inversion Hrun.
    - rewrite Psync in Hrun by done. by inversion Hrun. }
  intros Hd m p Hcalloc. apply Hdt in Hd.
  rewrite Hcalloc in *. simpl in *. split.
  - intros Hp.
    rewrite Pnew in Hrun by done.
    destruct (Hri Hpw Hph Hnn Hlive Hp)
      as (Hn & Ha & Hne & Hnew & Hold & Hframe).
    assert (p = a) as ->.
    { apply calloc_cases in Hcalloc as [[-> _] | (-> & _)]; done. }
    inversion Hrun; subst s'; clear Hrun. simpl.
    do 3 (split; [done |]). split.
    { unfold buffer_length, buffer; simpl. rewrite Hnew. simpl.
      by rewrite length_zero_block. }
    repeat split; done.
  - intros ->.
    rewrite Pkeep in Hrun by done.
    inversion Hrun; subst s'; clear Hrun. simpl.
    repeat split; try done. by rewrite Hk.
Qed.

Lemma open_success_witness :
  LibraryOk Demo.library /\ reachable Demo.s0 /\
  fenster_open (Library := Demo.library) Demo.dense (f (fb Demo.s0))
    = (0, Demo.present Demo.dense (f (fb Demo.s0))) /\
  (fenster_bridge_open (L := Demo.library) Demo.dense 8192 Demo.s0).1 = 0.
Proof.
  split; [exact demo_library_ok |].
  split; [exact demo_s0_reachable |].
  split; [reflexivity |].
  exact (proj1 (open_success (L := Demo.library) demo_library_ok
                  Demo.dense 8192 Demo.s0 _ _ _
                  demo_s0_reachable eq_refl eq_refl)).
Defined.

(** ** Loop *)

(** The claim of C5 fails when the allocation fails: the pump on the dense
    display finds the physical size 8x6 against the cached 4x3, the
    allocator is out of memory, and the cached dimensions and the cached
    scale are not updated: they stay what they were, so that the next pump
    tries again. *)
Lemma loop_cache_counterexample :
  Demo.starved
    = (fenster_bridge_loop (L := Demo.library) Demo.dense NULL Demo.s0).2 /\
  does_differ (pumped (L := Demo.library) Demo.dense Demo.s0) = true /\
  phys_size Demo.starved = (8, 6) /\
  (prev_width (fb Demo.starved), prev_height (fb Demo.starved)) = (4, 3) /\
  scale (f (fb Demo.starved)) = Demo.two /\
  prev_scale (fb Demo.starved) = Float32.one /\
  prev_width (fb Demo.starved) <> phys_width (f (fb Demo.starved)) /\
  prev_height (fb Demo.starved) <> phys_height (f (fb Demo.starved)) /\
  prev_scale (fb Demo.starved) <> scale (f (fb Demo.starved)).
Proof.
  repeat split; try reflexivity; discriminate.
Qed.

(** C5, amended: [fenster_bridge_loop] returns the status of the library's
    pump routine.  If the physical dimensions then differ from the cached
    ones, a buffer of the new physical dimensions is requested; when the
    allocation succeeds the new buffer is swapped in, the old one is freed,
    the window-state pointer is rewired, the resize flag is set and the
    cached dimensions and the cached scale are updated; when it fails the
    old buffer is retained, and with it the flag, the cached dimensions and
    the cached scale.  If the dimensions do not differ, only the library's
    writes to the window state remain. *)
Theorem loop_resize `{L : Library} (HL : LibraryOk L)
    (ev : event) (a : Z) (s s' : state) (r st : Z)
    (w : fenster platform ximage) :
  reachable s ->
  fenster_loop ev (f (fb s)) = (st, w) ->
  fenster_bridge_loop ev a s = (r, s') ->
  r = st /\
  (phys_width w <> prev_width (fb s) \/ phys_height w <> prev_height (fb s) ->
   forall m p,
     calloc (mem s) a (pixels (phys_width w) (phys_height w)) sizeof_uint32
       = (m, p) ->
     (p <> NULL ->
      buf (fb s') = p /\ Fenster.buf (f (fb s')) = p /\
      p <> buf (fb s) /\
      buffer_length s' = Some (phys_width w * phys_height w * 4) /\
      mem s' !! buf (fb s) = None /\
      (forall q, q <> p -> q <> buf (fb s) -> mem s' !! q = mem s !! q) /\
      resized (fb s') = 1 /\
      prev_width (fb s') = phys_width w /\
      prev_height (fb s') = phys_height w /\
      prev_scale (fb s') = scale w) /\
     (p = NULL ->
      mem s' = mem s /\
      buf (fb s') = buf (fb s) /\ Fenster.buf (f (fb s')) = buf (fb s) /\
      resized (fb s') = resized (fb s) /\
      prev_width (fb s') = prev_width (fb s) /\
      prev_height (fb s') = prev_height (fb s) /\
      prev_scale (fb s') = prev_scale (fb s))) /\
  (phys_width w = prev_width (fb s) /\ phys_height w = prev_height (fb s) ->
   s' = update s (mem s) (set_f (fb s) w)).
Proof.
  intros Hs Hpump Hrun.
  pose proof (reachable_owned HL s Hs) as Ho.
  pose proof (owned_is_Some s Ho) as Hlive. destruct Ho as (Hnn & _).
  pose proof (reachable_shared HL s Hs) as Hsh. unfold shared in Hsh.
  pose proof (loop_keeps_buf _ HL ev (f (fb s))) as Hk.
  destruct (loop_phys_int _ HL ev (f (fb s))) as [Hpw Hph].
  pose proof (loop_in_sync ev a s) as Psync.
  pose proof (loop_no_memory ev a s) as Pkeep.
  pose proof (loop_reallocated ev a s) as Pnew.
  pose proof (request_installs (pumped ev s) s a) as Hri.
  pose proof (does_differ_true (pumped ev s)) as Hdt.
  pose proof (does_differ_false (pumped ev s)) as Hdf.
  unfold pumped, request in *. rewrite Hpump in *. simpl in *.
  split; [| split].
  - destruct (does_differ (set_f (fb s) w)) eqn:Hd.
    + destruct (Z.eq_dec
                  (calloc (mem s) a (pixels (phys_width w) (phys_height w))
                     sizeof_uint32).2 NULL) as [Hp | Hp].
      * rewrite Pkeep in Hrun by done. by inversion Hrun.
      * rewrite Pnew in Hrun by done. by inversion Hrun.
    + rewrite Psync in Hrun by done. by inversion Hrun.
  - intros Hd m p Hcalloc. apply Hdt in Hd.
    rewrite Hcalloc in *. simpl in *. split.
    + intros Hp.
      rewrite Pnew in Hrun by done.
      destruct (Hri Hpw Hph Hnn Hlive Hp)
        as (Hn & Ha & Hne & Hnew & Hold & Hframe).
      assert (p = a) as ->.
      { apply calloc_cases in Hcalloc as [[-> _] | (-> & _)]; done. }
      inversion Hrun; subst s'; clear Hrun. simpl.
      split; [done |]. split; [by destruct x11 |]. split; [done |]. split.
      { unfold buffer_length, buffer; simpl. rewrite Hnew. simpl.
        by rewrite length_zero_block. }
      repeat split; done.
    + intros ->.
      rewrite Pkeep in Hrun by done.
      inversion Hrun; subst s'; clear Hrun. simpl.
      repeat split; try done. by rewrite Hk.
  - intros Hsame. apply Hdf in Hsame.
    rewrite Psync in Hrun by done. by inversion Hrun.
Qed.

Lemma loop_resize_witness :
  LibraryOk Demo.library /\ reachable Demo.s0 /\
  fenster_loop (Library := Demo.library) Demo.dense (f (fb Demo.s0))
    = (0, Demo.present Demo.dense (f (fb Demo.s0))) /\
  (fenster_bridge_loop (L := Demo.library) Demo.dense 8192 Demo.s0).1 = 0.
Proof.
  split; [exact demo_library_ok |].
  split; [exact demo_s0_reachable |].
  split; [reflexivity |].
  exact (proj1 (loop_resize (L := Demo.library) demo_library_ok
                  Demo.dense 8192 Demo.s0 _ _ _ _
                  demo_s0_reachable eq_refl eq_refl)).
Defined.

(** ** The resize flag *)

(** The claim of C6 fails on two paths.  First, the pump on the dense
    display detects the new physical size 8x6, the allocation fails, and
    the next read of the flag returns 0.  Second, after set_scale the flag
    is read (0, size 8x6) and cleared; the physical size stays 8x6, yet the
    next pump reallocates and the following read returns 1. *)
Lemma get_resized_counterexample :
  (does_differ (pumped (L := Demo.library) Demo.dense Demo.s0) = true /\
   (fenster_bridge_get_resized Demo.starved).1 = (0, 8, 6)) /\
  (let s1 := (fenster_bridge_get_resized Demo.scaled_up).2 in
   let s2 := (fenster_bridge_loop (L := Demo.library) Demo.dense 8192 s1).2 in
   (fenster_bridge_get_resized Demo.scaled_up).1 = (0, 8, 6) /\
   phys_size s1 = (8, 6) /\ phys_size s2 = (8, 6) /\
   (fenster_bridge_get_resized s2).1 = (1, 8, 6)).
Proof.
  repeat split; reflexivity.
Qed.

Section Flag.
Context {L : Library}.
Implicit Types (s : state) (ev : event) (a : Z).

(** Only a pump that detects a change and obtains the new buffer sets the
    flag. *)
Lemma flag_raised_by c s s' :
  step c s = Some s' ->
  resized (fb s') <> resized (fb s) ->
  resized (fb s') = 0 /\ c = GetResized \/
  resized (fb s') = 1 /\
  exists ev a, c = Loop ev a /\ does_differ (pumped ev s) = true /\
               (request (pumped ev s) (mem s) a).2 <> NULL.
Proof.
  intros Hc Hflag. destruct c; simpl in Hc.
  - exfalso. inversion Hc; subst; clear Hc. revert Hflag.
    apply (open_paths ev a s
             (fun r => resized (fb r.2) <> resized (fb s) -> False));
      simpl; intros; done.
  - inversion Hc; subst; clear Hc.
    destruct (does_differ (pumped ev s)) eqn:Hd.
    2: { rewrite loop_in_sync in Hflag by done. done. }
    destruct (Z.eq_dec (request (pumped ev s) (mem s) a).2 NULL) as [Hp | Hp].
    { rewrite loop_no_memory in Hflag by done. done. }
    right. rewrite loop_reallocated by done.
    split; [done |]. by exists ev, a.
  - by inversion Hc; subst.
  - apply copy_buf_cases in Hc as (old & _ & _ & _ & ->). done.
  - by inversion Hc; subst.
  - by inversion Hc; subst.
  - by inversion Hc; subst.
  - inversion Hc; subst. left. done.
  - by inversion Hc; subst.
  - apply set_scale_cases in Hc as (pw & ph & _ & _ & ->). done.
Qed.

(** A call after which the physical size is the cached one leaves the
    cache and a cleared flag alone. *)
Lemma quiet_step c s s' :
  step c s = Some s' ->
  resized (fb s) = 0 ->
  phys_size s' = (prev_width (fb s), prev_height (fb s)) ->
  resized (fb s') = 0 /\
  (prev_width (fb s'), prev_height (fb s'))
    = (prev_width (fb s), prev_height (fb s)).
Proof.
  intros Hc Hflag Hsize.
  assert (prev_width (fb s') = prev_width (fb s) /\
          prev_height (fb s') = prev_height (fb s)) as [Hw Hh].
  { destruct c; simpl in Hc;
      try (inversion Hc; subst; done).
    - inversion Hc; subst; clear Hc. revert Hsize.
      apply (open_paths ev a s
               (fun r => phys_size r.2 = _ ->
                         prev_width (fb r.2) = _ /\ prev_height (fb r.2) = _));
        simpl; try done.
      intros _ _ _. unfold phys_size; simpl. by intros [= -> ->].
    - inversion Hc; subst; clear Hc. revert Hsize.
      apply (loop_paths ev a s
               (fun r => phys_size r.2 = _ ->
                         prev_width (fb r.2) = _ /\ prev_height (fb r.2) = _));
        simpl; try done.
      intros _ _. unfold phys_size; simpl.
      destruct x11; simpl; by intros [= -> ->].
    - apply copy_buf_cases in Hc as (old & _ & _ & _ & ->). done.
    - apply set_scale_cases in Hc as (pw & ph & _ & _ & ->). done. }
  split; [| by rewrite Hw, Hh].
  destruct (Z.eq_dec (resized (fb s')) (resized (fb s))) as [E | E];
    [by rewrite E |].
  destruct (flag_raised_by c s s' Hc E)
    as [[H0 _] | (_ & ev & a & -> & Hd & Hp)]; [done |].
  exfalso. simpl in Hc. inversion Hc; subst; clear Hc.
  rewrite (loop_reallocated ev a s Hd Hp) in Hsize, Hw, Hh.
  unfold phys_size in Hsize. simpl in *.
  apply does_differ_true in Hd.
  assert (phys_width (f (pumped ev s)) = prev_width (fb s) /\
          phys_height (f (pumped ev s)) = prev_height (fb s)) as [E1 E2]
    by (destruct x11; simpl in *; by inversion Hsize).
  destruct Hd; done.
Qed.

Lemma quiet_run cs : forall s,
  resized (fb s) = 0 ->
  phys_size s = (prev_width (fb s), prev_height (fb s)) ->
  steady (phys_size s) cs s ->
  exists s', run cs s = Some s' /\ resized (fb s') = 0 /\
             phys_size s' = phys_size s.
Proof.
  induction cs as [| c cs IH]; intros s Hflag Hsync Hsteady; simpl in *.
  - by exists s.
  - destruct (step c s) as [s1 |] eqn:Hc; [| done]. simpl.
    destruct Hsteady as [Hsize Hrest].
    assert (phys_size s1 = (prev_width (fb s), prev_height (fb s))) as Hq
      by (by rewrite Hsize).
    destruct (quiet_step c s s1 Hc Hflag Hq) as [Hflag1 Hprev1].
    destruct (IH s1) as (s' & Hrun & Hflag' & Hsize').
    + done.
    + by rewrite Hprev1.
    + by rewrite Hsize.
    + exists s'. split; [done |]. split; [done |]. by rewrite Hsize'.
Qed.

End Flag.

(** C6, amended: [fenster_bridge_get_resized] returns the resize flag,
    writes the current physical width and height to its out-parameters and
    clears the flag, leaving everything else alone (read-and-reset).  The
    flag is raised only by a loop call that finds the physical dimensions
    different from the cached ones and whose reallocation succeeds: after
    such a loop call the first read returns 1 and an immediately following
    read returns 0, both with the new physical dimensions.  When the flag
    is cleared at a moment where the cached dimensions agree with the
    physical ones, and the physical size does not change in the calls that
    follow, the next read returns 0 and reports the same dimensions. *)
Theorem get_resized_read_and_reset `{L : Library} :
  (forall s : state,
     fenster_bridge_get_resized s
       = ((resized (fb s), phys_width (f (fb s)), phys_height (f (fb s))),
          update s (mem s) (set_resized (fb s) 0))) /\
  (forall (ev : event) (a : Z) (s : state),
     does_differ (pumped ev s) = true ->
     (request (pumped ev s) (mem s) a).2 <> NULL ->
     let s1 := (fenster_bridge_loop ev a s).2 in
     let d := (phys_width (f (pumped ev s)), phys_height (f (pumped ev s))) in
     (fenster_bridge_get_resized s1).1 = (1, d.1, d.2) /\
     (fenster_bridge_get_resized (fenster_bridge_get_resized s1).2).1
       = (0, d.1, d.2)) /\
  (forall (c : call) (s s' : state),
     step c s = Some s' -> resized (fb s) = 0 -> resized (fb s') <> 0 ->
     exists ev a, c = Loop ev a /\ does_differ (pumped ev s) = true /\
                  (request (pumped ev s) (mem s) a).2 <> NULL) /\
  (forall (cs : list call) (s0 : state),
     let s := (fenster_bridge_get_resized s0).2 in
     phys_size s0 = (prev_width (fb s0), prev_height (fb s0)) ->
     steady (phys_size s0) cs s ->
     exists s', run cs s = Some s' /\
                (fenster_bridge_get_resized s').1
                  = (0, (phys_size s0).1, (phys_size s0).2)).
Proof.
  split; [| split; [| split]].
  - (* the body of the function, read off *)
    intros s. reflexivity.
  - (* the resize path of loop raises the flag; the first read clears it *)
    intros ev a s Hd Hp s1 d. subst s1 d.
    rewrite (loop_reallocated ev a s Hd Hp). simpl.
    unfold fenster_bridge_get_resized; simpl.
    destruct x11; simpl; split; reflexivity.
  - (* no other call raises it *)
    intros c s s' Hc H0 H1.
    destruct (flag_raised_by c s s' Hc) as [[E _] | (_ & ev & a & Hev)];
      [congruence | done | by exists ev, a].
  - (* by induction along the calls *)
    intros cs s0 s Hsync Hsteady.
    destruct (quiet_run cs s) as (s' & Hrun & Hflag & Hsize);
      [reflexivity | exact Hsync | exact Hsteady |].
    exists s'. split; [exact Hrun |].
    unfold fenster_bridge_get_resized; simpl. rewrite Hflag.
    change (phys_size s) with (phys_size s0) in Hsize.
    unfold phys_size in Hsize. simpl in Hsize.
    inversion Hsize as [[Hw Hh]]. unfold phys_size. simpl. by rewrite Hw, Hh.
Qed.

Lemma get_resized_read_and_reset_witness :
  (does_differ (pumped (L := Demo.library) Demo.dense Demo.s0) = true /\
   (request (pumped (L := Demo.library) Demo.dense Demo.s0)
      (mem Demo.s0) 8192).2 <> NULL /\
   (fenster_bridge_get_resized Demo.resized_up).1 = (1, 8, 6) /\
   (fenster_bridge_get_resized
      (fenster_bridge_get_resized Demo.resized_up).2).1 = (0, 8, 6)) /\
  (phys_size Demo.resized_up
     = (prev_width (fb Demo.resized_up), prev_height (fb Demo.resized_up)) /\
   steady (phys_size Demo.resized_up)
     [Loop (L := Demo.library) Demo.dense 12288; GetSize]
     (fenster_bridge_get_resized Demo.resized_up).2 /\
   exists s',
     run [Loop (L := Demo.library) Demo.dense 12288; GetSize]
       (fenster_bridge_get_resized Demo.resized_up).2 = Some s' /\
     (fenster_bridge_get_resized s').1 = (0, 8, 6)).
Proof.
  assert (does_differ (pumped (L := Demo.library) Demo.dense Demo.s0) = true)
    as Hd by reflexivity.
  assert ((request (pumped (L := Demo.library) Demo.dense Demo.s0)
             (mem Demo.s0) 8192).2 <> NULL) as Hp by discriminate.
  assert (steady (phys_size Demo.resized_up)
            [Loop (L := Demo.library) Demo.dense 12288; GetSize]
            (fenster_bridge_get_resized Demo.resized_up).2) as Hsteady
    by (simpl; repeat split; reflexivity).
  destruct (get_resized_read_and_reset (L := Demo.library))
    as (_ & Hraise & _ & Hquiet).
  split.
  - split; [exact Hd |]. split; [exact Hp |].
    exact (Hraise Demo.dense 8192 Demo.s0 Hd Hp).
  - split; [reflexivity |]. split; [exact Hsteady |].
    exact (Hquiet _ Demo.resized_up eq_refl Hsteady).
Defined.

(** ** The scale factor *)

(** The testable property of the specification: a logical size of 100
    scaled by 2.0 is the physical size 200.  The product is computed in
    [float], so it is rounded (a width above 2^24 need not survive a scale
    of 1.0), it is truncated toward zero, and it must fit an [int]. *)
Lemma scaled_examples :
  scaled 100 Demo.two = Some 200 /\
  scaled 3 (S754_finite false 12582912 (-23)) = Some 4 /\
  scaled (-3) (S754_finite false 12582912 (-23)) = Some (-4) /\
  scaled 16777217 Float32.one = Some 16777216 /\
  scaled (2 ^ 30) Demo.two = None /\
  scaled 100 S754_nan = None.
Proof. repeat split; reflexivity. Qed.

(** The literal [1.0f] of create is the [float] of the integer 1. *)
Lemma float_one_is_one :
  Float32.of_int 1 = Float32.one /\ Float32.to_int Float32.one = Some 1.
Proof. split; reflexivity. Qed.

(** *** Products that need no rounding

    [SpecFloat] rounds every result of a [float] operation.  When the
    exact result has at most 24 significant bits and is not too large, the
    rounding only drops zero bits: the operation is exact.  This gives the
    value of [scaled] in integer arithmetic, with no [float] in it. *)



















(** An undefined conversion is the only way for set_scale to be
    undefined. *)
Lemma set_scale_undefined `{L : Library} (s : state) (x : spec_float) :
  fenster_bridge_set_scale s x = None <->
  scaled (width (f (fb s))) x = None \/ scaled (height (f (fb s))) x = None.
Proof.
  unfold fenster_bridge_set_scale. simpl.
  destruct (scaled (width (f (fb s))) x); simpl;
    destruct (scaled (height (f (fb s))) x); simpl; split;
    try done; try (intros [? | ?]; done); auto.
Qed.

(** ** Create *)

(** C8: [fenster_bridge_create] returns [NULL] when the allocation of the
    handle fails, and when the allocation of the pixel buffer fails, in
    which case the handle has been released and the heap is as it was
    before the call.  When both succeed it returns a handle whose cached
    previous width and height are the requested ones, whose cached scale is
    1.0, whose resize flag is clear, and whose window state holds the
    requested logical width and height, the title copy and the buffer
    pointer.  The title copy is owned by the handle: when the allocator
    grants the address [a_title] (not [NULL], not live before the call and
    neither of the two blocks just allocated), the title copy is the block
    at [a_title], distinct from the handle and from the buffer, and holds
    the bytes of the title and the terminating zero; when the allocator
    refuses, the title copy is [NULL] and the heap holds the two new blocks
    only. *)
Theorem create_result `{L : Library} (m : gmap Z (list byte))
    (a_fb a_buf a_title : Z) (str : list byte) (w h : Z) :
  let m1 :=
    <[a_fb := replicate (Z.to_nat (1 * sizeof_fenster_bridge)) x00]> m in
  ((calloc m a_fb 1 sizeof_fenster_bridge).2 = NULL ->
   fenster_bridge_create m a_fb a_buf a_title str w h = Null m) /\
  ((calloc m a_fb 1 sizeof_fenster_bridge).2 <> NULL ->
   (calloc m1 a_buf (pixels w h) sizeof_uint32).2 = NULL ->
   fenster_bridge_create m a_fb a_buf a_title str w h = Null m) /\
  ((calloc m a_fb 1 sizeof_fenster_bridge).2 <> NULL ->
   (calloc m1 a_buf (pixels w h) sizeof_uint32).2 <> NULL ->
   exists s,
     fenster_bridge_create m a_fb a_buf a_title str w h = Handle s /\
     self s = a_fb /\ mem s !! a_fb = m1 !! a_fb /\
     buf (fb s) = a_buf /\ a_buf <> NULL /\ is_Some (buffer s) /\
     prev_width (fb s) = w /\ prev_height (fb s) = h /\
     prev_scale (fb s) = Float32.one /\
     resized (fb s) = 0 /\
     width (f (fb s)) = w /\ height (f (fb s)) = h /\
     title (f (fb s)) = title_copy (fb s) /\
     Fenster.buf (f (fb s)) = a_buf /\
     (title_copy (fb s) <> NULL ->
      mem s !! title_copy (fb s) = Some (str ++ [x00]) /\
      title_copy (fb s) <> a_buf /\ title_copy (fb s) <> a_fb) /\
     (title_copy (fb s) = NULL ->
      forall q, q <> a_fb -> q <> a_buf -> mem s !! q = m !! q) /\
     (a_title <> NULL -> m !! a_title = None ->
      a_title <> a_fb -> a_title <> a_buf ->
      title_copy (fb s) = a_title /\ title (f (fb s)) = a_title /\
      mem s !! a_title = Some (str ++ [x00])) /\
     (a_title = NULL \/ is_Some (m !! a_title) \/
      a_title = a_fb \/ a_title = a_buf ->
      title_copy (fb s) = NULL /\ title (f (fb s)) = NULL)).
Proof.
  intros m1.
  destruct (create_cases m a_fb a_buf a_title str w h)
    as [[E [H1 | (H1 & Hp & H2)]]
       | (t & m3 & H1 & Hp & H2 & Hb & Hne & Hsz & Ht & E)];
    fold m1 in H2 || idtac; rewrite E; clear E.
  - split; [done |]. split; intros Hc; done.
  - split; [done |]. split; [done |]. intros _ Hc. done.
  - fold m1 in Ht.
    split; [intros Hc; rewrite H1 in Hc; done |].
    split; [intros _ Hc; rewrite H2 in Hc; done |].
    intros _ _. eexists. split; [reflexivity |]. simpl.
    assert (m1 !! a_buf = None) as Hfresh.
    { destruct (calloc m1 a_buf (pixels w h) sizeof_uint32) as [m2 p] eqn:Ec.
      simpl in H2; subst p.
      apply calloc_cases in Ec as [[-> _] | (_ & _ & Hf & _)]; done. }
    split; [done |].
    set (m2 := <[a_buf := replicate (Z.to_nat (pixels w h * sizeof_uint32))
                            x00]> m1) in *.
    assert (a_title <> NULL -> m !! a_title = None ->
            a_title <> a_fb -> a_title <> a_buf ->
            t = a_title /\ m3 = <[a_title := str ++ [x00]]> m2) as Hgrant.
    { intros Ht0 Hm Htf Htb.
      rewrite strdup_granted in Ht; [by inversion Ht | done |].
      unfold m2, m1. by rewrite !lookup_insert_ne. }
    assert (a_title = NULL \/ is_Some (m !! a_title) \/
            a_title = a_fb \/ a_title = a_buf -> t = NULL) as Hrefuse.
    { intros Hr. rewrite strdup_refused in Ht; [by inversion Ht |].
      destruct Hr as [-> | [Hr | [-> | ->]]]; [by left | right ..].
      - destruct (decide (a_title = a_buf)) as [-> | Htb];
          [unfold m2; by rewrite lookup_insert_eq |].
        destruct (decide (a_title = a_fb)) as [-> | Htf];
          [unfold m2, m1;
           by rewrite lookup_insert_ne, lookup_insert_eq by done |].
        unfold m2, m1. by rewrite !lookup_insert_ne.
      - unfold m2, m1.
        by rewrite lookup_insert_ne, lookup_insert_eq by done.
      - unfold m2. by rewrite lookup_insert_eq. }
    apply strdup_cases in Ht as [[-> ->] | (-> & Ht0 & Hfresh3 & ->)].
    + unfold buffer; simpl. unfold m2.
      rewrite lookup_insert_ne by done.
      rewrite !lookup_insert_eq.
      do 12 (split; [done |]). split; [done |].
      split.
      { intros _ q Hq1 Hq2. unfold m1. by rewrite !lookup_insert_ne. }
      split.
      { intros G1 G2 G3 G4.
        destruct (Hgrant G1 G2 G3 G4) as [Hnull _]. by destruct G1. }
      done.
    + assert (a_title <> a_buf) as Htb
        by (intros ->; unfold m2 in Hfresh3;
            by rewrite lookup_insert_eq in Hfresh3).
      assert (a_title <> a_fb) as Htf.
      { intros ->. unfold m2 in Hfresh3.
        rewrite lookup_insert_ne in Hfresh3 by done.
        unfold m1 in Hfresh3. by rewrite lookup_insert_eq in Hfresh3. }
      unfold buffer; simpl. unfold m2.
      rewrite !(lookup_insert_ne _ a_title) by done.
      rewrite lookup_insert_ne by done.
      rewrite !lookup_insert_eq.
      do 12 (split; [done |]). split; [done |].
      split; [done |]. split; [done |].
      intros Hr. split; by apply Hrefuse.
Qed.

Lemma create_result_witness :
  (calloc (∅ : gmap Z (list byte)) 16 1
     (sizeof_fenster_bridge (Library := Demo.library))).2 <> NULL /\
  fenster_bridge_create (L := Demo.library) ∅ 16 NULL 4096 Demo.the_title 4 3
    = Null ∅ /\
  (exists s,
     fenster_bridge_create (L := Demo.library) ∅ 16 2048 4096
       Demo.the_title 4 3 = Handle s /\
     prev_width (fb s) = 4 /\ prev_height (fb s) = 3 /\
     prev_scale (fb s) = Float32.one /\ resized (fb s) = 0 /\
     width (f (fb s)) = 4 /\ height (f (fb s)) = 3 /\
     Fenster.buf (f (fb s)) = 2048 /\
     title_copy (fb s) = 4096 /\ title (f (fb s)) = 4096 /\
     mem s !! 4096 = Some [x69; x6e; x6b; x00]) /\
  (exists s,
     fenster_bridge_create (L := Demo.library) ∅ 16 2048 NULL
       Demo.the_title 4 3 = Handle s /\
     title_copy (fb s) = NULL /\ title (f (fb s)) = NULL /\
     mem s !! 4096 = None).
Proof.
  assert ((calloc (∅ : gmap Z (list byte)) 16 1
             (sizeof_fenster_bridge (Library := Demo.library))).2 <> NULL)
    as Hfb by discriminate.
  assert ((calloc
             (<[16 := replicate
                        (Z.to_nat
                           (1 * sizeof_fenster_bridge
                                  (Library := Demo.library))) x00]>
                (∅ : gmap Z (list byte)))
             2048 (pixels 4 3) sizeof_uint32).2 <> NULL)
    as Hbuf by discriminate.
  split; [exact Hfb |]. split; [| split].
  - exact (proj1 (proj2 (create_result (L := Demo.library) ∅ 16 NULL 4096
                           Demo.the_title 4 3)) Hfb eq_refl).
  - destruct (proj2 (proj2 (create_result (L := Demo.library) ∅ 16 2048 4096
                              Demo.the_title 4 3)) Hfb Hbuf)
      as (s & Hs & _ & _ & _ & _ & _ & Hw & Hh & Hsc & Hr & Hlw & Hlh & _
          & Hfbuf & _ & _ & Hgrant & _).
    destruct Hgrant as (Htc & Htt & Hmem); [done .. |].
    exists s. repeat split; assumption.
  - destruct (proj2 (proj2 (create_result (L := Demo.library) ∅ 16 2048 NULL
                              Demo.the_title 4 3)) Hfb Hbuf)
      as (s & Hs & _ & _ & _ & _ & _ & _ & _ & _ & _ & _ & _ & _
          & _ & _ & Hnone & _ & Hrefuse).
    destruct Hrefuse as (Htc & Htt); [by left |].
    exists s. split; [exact Hs |]. split; [exact Htc |].
    split; [exact Htt |]. rewrite (Hnone Htc 4096) by done. reflexivity.
Defined.

(** ** Copying into the buffer *)

(** C9: for a live buffer of contents [old], a source region [src] and a
    byte length [n] with [0 <= n], [n] at most the length of the buffer and
    the source region holding at least [n] bytes,
    [fenster_bridge_copy_buf] is defined, overwrites exactly the first [n]
    bytes of the buffer with the first [n] bytes of the source and leaves
    the remaining bytes, the other blocks and the handle unchanged; when
    [n] is the length of the buffer, the buffer afterwards is the first [n]
    bytes of the source, and the source itself when that is of length [n]
    too. *)
Theorem copy_buf_overwrites_prefix `{L : Library} (s : state)
    (src old : list byte) (n : Z) :
  buffer s = Some old ->
  is_int n -> 0 <= n ->
  n <= Z.of_nat (length old) -> n <= Z.of_nat (length src) ->
  exists s' new,
    fenster_bridge_copy_buf s src n = Some s' /\
    buffer s' = Some new /\
    fb s' = fb s /\ self s' = self s /\
    length new = length old /\
    (forall i, (i < Z.to_nat n)%nat -> new !! i = src !! i) /\
    (forall i, (Z.to_nat n <= i)%nat -> new !! i = old !! i) /\
    (forall q, q <> buf (fb s) -> mem s' !! q = mem s !! q) /\
    (n = Z.of_nat (length old) -> new = take (Z.to_nat n) src) /\
    (n = Z.of_nat (length old) -> n = Z.of_nat (length src) -> new = src).
Proof.
  intros Hold Hint Hn Hn1 Hn2.
  assert (size_t_of_int n = n) as Hsz.
  { unfold size_t_of_int, SIZE_MOD. apply Z.mod_small.
    unfold is_int, INT_MAX in Hint. lia. }
  unfold fenster_bridge_copy_buf, memcpy. unfold buffer in Hold.
  rewrite Hold, Hsz.
  destruct (n <=? Z.of_nat (length old)) eqn:E1; [| lia].
  destruct (n <=? Z.of_nat (length src)) eqn:E2; [| lia].
  simpl. eexists _, _. split; [reflexivity |].
  unfold buffer; simpl. rewrite lookup_insert_eq.
  split; [reflexivity |]. do 2 (split; [reflexivity |]).
  assert (length (take (Z.to_nat n) src) = Z.to_nat n) as Htake
    by (rewrite length_take; lia).
  split; [rewrite length_app, Htake, length_drop; lia |].
  split; [| split; [| split; [| split]]].
  - intros i Hi. rewrite lookup_app_l by lia. by rewrite lookup_take_lt.
  - intros i Hi. rewrite lookup_app_r by lia. rewrite Htake.
    rewrite lookup_drop. f_equal. lia.
  - intros q Hq. by rewrite lookup_insert_ne.
  - intros ->. rewrite Nat2Z.id, drop_all. by rewrite app_nil_r.
  - intros -> Hsrc. apply Nat2Z.inj in Hsrc.
    rewrite Nat2Z.id, drop_all, app_nil_r. rewrite Hsrc. apply firstn_all.
Qed.

Lemma copy_buf_overwrites_prefix_witness :
  buffer Demo.s0 = Some (replicate 48 x00) /\
  is_int 2 /\ 0 <= 2 /\
  2 <= Z.of_nat (length (replicate 48 x00)) /\
  2 <= Z.of_nat (length [x01; x02; x03]) /\
  exists s' new,
    fenster_bridge_copy_buf Demo.s0 [x01; x02; x03] 2 = Some s' /\
    buffer s' = Some new /\
    new !! 0%nat = Some x01 /\ new !! 1%nat = Some x02 /\
    new !! 2%nat = Some x00.
Proof.
  assert (is_int 2) as Hint by (unfold is_int, INT_MIN, INT_MAX; lia).
  assert (2 <= Z.of_nat (length (replicate 48 x00))) as H1 by (simpl; lia).
  assert (2 <= Z.of_nat (length [x01; x02; x03])) as H2 by (simpl; lia).
  assert (0 <= 2) as H0 by lia.
  do 5 (split; [done |]).
  destruct (copy_buf_overwrites_prefix Demo.s0 [x01; x02; x03]
              (replicate 48 x00) 2 eq_refl Hint H0 H1 H2)
    as (s' & new & Hs' & Hnew & _ & _ & _ & Hpre & Hpost & _).
  exists s', new. split; [exact Hs' |]. split; [exact Hnew |].
  rewrite (Hpre 0%nat), (Hpre 1%nat), (Hpost 2%nat) by (simpl; lia).
  repeat split.
Defined.

(** ** Fresh buffers are zeroed *)

Lemma zero_block_zeroed `{L : Library} (s : state) (w h : Z) :
  0 <= w * h * 4 ->
  buffer s = Some (replicate (Z.to_nat (w * h * 4)) x00) ->
  zeroed s w h.
Proof.
  intros Hn Hblk. exists (replicate (Z.to_nat (w * h * 4)) x00).
  split; [exact Hblk |]. split; [by apply length_zero_block |].
  intros i Hi. apply pixel_at_zero_block. lia.
Qed.

(** C10: every pixel buffer the bridge installs is zero-initialised.
    Right after a successful [fenster_bridge_create] the buffer holds
    [w * h] pixels that are all 0, and right after a reallocation by
    [fenster_bridge_open] or by [fenster_bridge_loop] the new buffer holds
    [phys_width * phys_height] pixels that are all 0. *)
Theorem installed_buffers_are_zeroed `{L : Library} (HL : LibraryOk L) :
  (forall m a_fb a_buf a_title str w h (s : state),
     is_int w -> is_int h ->
     fenster_bridge_create m a_fb a_buf a_title str w h = Handle s ->
     zeroed s w h) /\
  (forall (ev : event) (a : Z) (s : state),
     reachable s ->
     (fenster_open ev (f (fb s))).1 = 0 ->
     does_differ (opened ev s) = true ->
     (request (opened ev s) (mem s) a).2 <> NULL ->
     buf (fb (fenster_bridge_open ev a s).2) = a /\
     zeroed (fenster_bridge_open ev a s).2
       (phys_width (f (opened ev s))) (phys_height (f (opened ev s)))) /\
  (forall (ev : event) (a : Z) (s : state),
     reachable s ->
     does_differ (pumped ev s) = true ->
     (request (pumped ev s) (mem s) a).2 <> NULL ->
     buf (fb (fenster_bridge_loop ev a s).2) = a /\
     zeroed (fenster_bridge_loop ev a s).2
       (phys_width (f (pumped ev s))) (phys_height (f (pumped ev s)))).
Proof.
  split; [| split].
  - intros m a_fb a_buf a_title str w h s Hw Hh Hc.
    destruct (create_buffer _ _ _ _ _ _ _ _ Hc) as [Hsz Hblk].
    destruct (pixels_exact w h Hw Hh Hsz) as [Hpx Hpos].
    rewrite Hpx in Hblk. unfold sizeof_uint32 in Hblk.
    apply zero_block_zeroed; [lia | exact Hblk].
  - intros ev a s Hs Hr Hd Hp.
    pose proof (reachable_owned HL s Hs) as Ho.
    pose proof (owned_is_Some s Ho) as Hlive. destruct Ho as (Hnn & _).
    destruct (open_phys_int _ HL ev (f (fb s))) as [Hpw Hph].
    pose proof (request_installs (opened ev s) s a Hpw Hph Hnn Hlive Hp)
      as Hri.
    cbv zeta in Hri. destruct Hri as (Hn & _ & _ & Hnew & _).
    rewrite (open_reallocated ev a s Hr Hd Hp). simpl.
    split; [reflexivity |]. by apply zero_block_zeroed.
  - intros ev a s Hs Hd Hp.
    pose proof (reachable_owned HL s Hs) as Ho.
    pose proof (owned_is_Some s Ho) as Hlive. destruct Ho as (Hnn & _).
    destruct (loop_phys_int _ HL ev (f (fb s))) as [Hpw Hph].
    pose proof (request_installs (pumped ev s) s a Hpw Hph Hnn Hlive Hp)
      as Hri.
    cbv zeta in Hri. destruct Hri as (Hn & _ & _ & Hnew & _).
    rewrite (loop_reallocated ev a s Hd Hp). simpl.
    split; [reflexivity |]. by apply zero_block_zeroed.
Qed.

Lemma installed_buffers_are_zeroed_witness :
  LibraryOk Demo.library /\
  zeroed Demo.s0 4 3 /\
  zeroed (fenster_bridge_open (L := Demo.library) Demo.dense 8192 Demo.s0).2
    8 6 /\
  zeroed Demo.resized_up 8 6.
Proof.
  destruct (installed_buffers_are_zeroed demo_library_ok)
    as (Hcreate & Hopen & Hloop).
  assert (is_int 4 /\ is_int 3) as [H4 H3]
    by (unfold is_int, INT_MIN, INT_MAX; lia).
  split; [exact demo_library_ok |]. split; [| split].
  - exact (Hcreate ∅ 16 2048 4096 Demo.the_title 4 3 Demo.s0 H4 H3
             demo_made).
  - refine (proj2 (Hopen Demo.dense 8192 Demo.s0 demo_s0_reachable
                     eq_refl eq_refl _)).
    discriminate.
  - refine (proj2 (Hloop Demo.dense 8192 Demo.s0 demo_s0_reachable
                     eq_refl _)).
    discriminate.
Defined.

(** ** Close *)

(** A handle that is created and closed at once leaves the heap as it was:
    the buffer, the title copy and the handle record are all released, and
    a [NULL] handle is left alone. *)
Lemma create_close_restores `{L : Library} (m : gmap Z (list byte))
    (a_fb a_buf a_title : Z) (str : list byte) (w h : Z) :
  fenster_bridge_close
    (fenster_bridge_create m a_fb a_buf a_title str w h) = m.
Proof.
  destruct (create_cases m a_fb a_buf a_title str w h)
    as [[E _] | (t & m3 & H1 & Hp & H2 & Hb & Hne & Hsz & Ht & E)];
    rewrite E; clear E; [reflexivity |].
  assert (m !! a_fb = None) as Hfresh1.
  { destruct (calloc m a_fb 1 sizeof_fenster_bridge) as [m1 p] eqn:Ec.
    apply calloc_cases in Ec as [[-> _] | (_ & _ & Hf & _)]; done. }
  assert (m !! a_buf = None) as Hfresh2.
  { destruct (calloc _ a_buf (pixels w h) sizeof_uint32) as [m2 p] eqn:Ec.
    apply calloc_cases in Ec as [[-> _] | (_ & _ & Hf & _)]; [done |].
    by rewrite lookup_insert_ne in Hf. }
  simpl. unfold free.
  destruct (a_buf =? NULL) eqn:E1; [lia |].
  destruct (a_fb =? NULL) eqn:E2; [lia |].
  apply strdup_cases in Ht as [[-> ->] | (-> & Ht0 & Hfresh3 & ->)].
  - simpl. apply map_eq. intros q.
    rewrite !lookup_delete, !lookup_insert.
    repeat case_decide; subst; done.
  - destruct (a_title =? NULL) eqn:E3; [lia |].
    assert (a_title <> a_buf) as Htb
      by (intros ->; by rewrite lookup_insert_eq in Hfresh3).
    assert (a_title <> a_fb) as Htf.
    { intros ->. rewrite lookup_insert_ne in Hfresh3 by done.
      by rewrite lookup_insert_eq in Hfresh3. }
    rewrite !lookup_insert_ne in Hfresh3 by done.
    apply map_eq. intros q.
    rewrite !lookup_delete, !lookup_insert.
    repeat case_decide; subst; done.
Qed.

(** * Further properties of the bridge *)

(** ** Ownership over a whole session *)

Section Ownership.
Context {L : Library}.
Implicit Types (s : state) (ev : event) (a : Z).

Lemma request_granted (b : fenster_bridge) (m : gmap Z (list byte)) a :
  (request b m a).2 <> NULL ->
  a <> NULL /\ m !! a = None /\
  exists blk, (request b m a).1 = <[a := blk]> m.
Proof.
  unfold request. destruct (calloc _ _ _ _) as [m' p] eqn:E. simpl.
  intros Hp.
  apply calloc_cases in E as [[-> _] | (_ & Ha & Hfresh & _ & ->)];
    [done |]. eauto.
Qed.

Lemma create_footprint m0 str a_fb a_buf a_title w h s :
  fenster_bridge_create m0 a_fb a_buf a_title str w h = Handle s ->
  footprint m0 str s.
Proof.
  intros H.
  destruct (create_cases m0 a_fb a_buf a_title str w h)
    as [[E _] | (t & m3 & H1 & Hp & H2 & Hb & Hne & Hsz & Ht & E)];
    rewrite E in H; [done |].
  inversion H; subst s; clear H E. unfold footprint; simpl.
  assert (m0 !! a_fb = None) as Hfresh1.
  { destruct (calloc m0 a_fb 1 sizeof_fenster_bridge) as [m1 p] eqn:Ec.
    apply calloc_cases in Ec as [[-> _] | (_ & _ & Hf & _)]; done. }
  assert (m0 !! a_buf = None) as Hfresh2.
  { destruct (calloc _ a_buf (pixels w h) sizeof_uint32) as [m2 p] eqn:Ec.
    apply calloc_cases in Ec as [[-> _] | (_ & _ & Hf & _)]; [done |].
    by rewrite lookup_insert_ne in Hf. }
  apply strdup_cases in Ht as [[-> ->] | (-> & Ht0 & Hfresh3 & ->)].
  - do 7 (split; [done |]).
    rewrite lookup_insert_ne by done. rewrite !lookup_insert_eq.
    do 2 (split; [done |]). split; [by left |].
    intros q Hq1 Hq2 _. by rewrite !lookup_insert_ne.
  - assert (a_title <> a_buf) as Htb
      by (intros ->; by rewrite lookup_insert_eq in Hfresh3).
    assert (a_title <> a_fb) as Htf.
    { intros ->. rewrite lookup_insert_ne in Hfresh3 by done.
      by rewrite lookup_insert_eq in Hfresh3. }
    rewrite !lookup_insert_ne in Hfresh3 by done.
    do 7 (split; [done |]).
    rewrite !(lookup_insert_ne _ a_title) by done.
    rewrite lookup_insert_ne by done. rewrite !lookup_insert_eq.
    do 2 (split; [done |]). split; [right; done |].
    intros q Hq1 Hq2 [Hq3 | Hq3]; [| done].
    by rewrite !lookup_insert_ne.
Qed.

(** The footprint when only the members of the handle change. *)
Lemma footprint_same_blocks m0 str s (b : fenster_bridge) :
  buf b = buf (fb s) -> title_copy b = title_copy (fb s) ->
  footprint m0 str s -> footprint m0 str (update s (mem s) b).
Proof. unfold footprint; simpl. intros -> ->. done. Qed.

(** The footprint after the buffer has been replaced by a fresh block. *)
Lemma footprint_new_buffer m0 str s (b : fenster_bridge) a blk :
  a <> NULL -> mem s !! a = None ->
  buf b = a -> title_copy b = title_copy (fb s) ->
  footprint m0 str s ->
  footprint m0 str
    (update s (free (<[a := blk]> (mem s)) (buf (fb s))) b).
Proof.
  intros Ha Hfresh Hb Ht
    (Hs & Hnn & Hsb & Hts & Htb & H0s & H0b & Hls & Hlb & Htitle & Hframe).
  assert (a <> self s) as Has by (intros ->; by destruct Hls; congruence).
  assert (a <> buf (fb s)) as Hab by (intros ->; by destruct Hlb; congruence).
  assert (title_copy (fb s) <> a) as Hta.
  { destruct Htitle as [E | [_ E]]; [by rewrite E |]. intros <-. congruence. }
  assert (m0 !! a = None) as H0a.
  { rewrite <- Hframe; [done | done | done |].
    destruct Htitle as [E | _]; [by right | by left]. }
  unfold footprint, free; simpl. rewrite Hb, Ht.
  destruct (buf (fb s) =? NULL) eqn:E0; [lia |].
  do 7 (split; [done |]).
  split; [by rewrite lookup_delete_ne, lookup_insert_ne by done |].
  split; [rewrite lookup_delete_ne, lookup_insert_eq by done; eauto |].
  split.
  - destruct Htitle as [E | [E1 E2]]; [by left | right].
    split; [done |].
    by rewrite lookup_delete_ne, lookup_insert_ne by done.
  - intros q Hq1 Hq2 Hq3.
    rewrite lookup_delete, lookup_insert. repeat case_decide; subst; try done.
    by apply Hframe.
Qed.

Lemma step_footprint m0 str c s s' :
  footprint m0 str s -> step c s = Some s' -> footprint m0 str s'.
Proof.
  intros Hf Hc. destruct c; simpl in Hc;
    try (inversion Hc; subst;
         first [exact Hf | by apply (footprint_same_blocks m0 str s)]).
  - inversion Hc; subst; clear Hc.
    apply (open_paths ev a s (fun r => footprint m0 str r.2)); simpl;
      try (intros; by apply footprint_same_blocks).
    intros _ _ Hp.
    destruct (request_granted _ _ _ Hp) as (Ha & Hfresh & blk & ->).
    by apply footprint_new_buffer.
  - inversion Hc; subst; clear Hc.
    apply (loop_paths ev a s (fun r => footprint m0 str r.2)); simpl;
      try (intros; by apply footprint_same_blocks).
    intros _ Hp.
    destruct (request_granted _ _ _ Hp) as (Ha & Hfresh & blk & ->).
    by apply footprint_new_buffer.
  - apply copy_buf_cases in Hc as (old & Hold & _ & _ & ->).
    destruct Hf
      as (Hs & Hnn & Hsb & Hts & Htb & H0s & H0b & Hls & Hlb & Htitle & Hframe).
    unfold footprint; simpl. do 7 (split; [done |]).
    rewrite lookup_insert_eq. rewrite lookup_insert_ne by done.
    do 2 (split; [done |]). split.
    + destruct Htitle as [E | [E1 E2]]; [by left | right].
      by rewrite lookup_insert_ne by done.
    + intros q Hq1 Hq2 Hq3. rewrite lookup_insert_ne by done.
      by apply Hframe.
  - apply set_scale_cases in Hc as (pw & ph & _ & _ & ->).
    by apply footprint_same_blocks.
Qed.

Lemma session_footprint m0 str s : session m0 str s -> footprint m0 str s.
Proof.
  induction 1 as [a_fb a_buf a_title w h s Hc | c s s' _ IH Hc].
  - exact (create_footprint _ _ _ _ _ _ _ _ Hc).
  - exact (step_footprint m0 str c s s' IH Hc).
Qed.

End Ownership.

Lemma demo_session_resized_up : session ∅ Demo.the_title Demo.resized_up.
Proof.
  apply (session_step ∅ Demo.the_title
           (Loop (L := Demo.library) Demo.dense 8192) Demo.s0);
    [| reflexivity].
  exact (session_create (L := Demo.library) ∅ Demo.the_title
           16 2048 4096 4 3 Demo.s0 demo_made).
Qed.

(** X1: whatever defined calls were made on a handle since its creation on
    the heap [m0] (opens, loops with or without reallocation, copies,
    scale changes), closing it gives back exactly [m0]: the buffer in use,
    the title copy and the handle record are released, the buffers
    replaced on the way were released when they were replaced, and no
    other block is touched. *)
Theorem close_restores_heap `{L : Library} (m0 : gmap Z (list byte))
    (str : list byte) (s : state) :
  session m0 str s -> fenster_bridge_close (Handle s) = m0.
Proof.
  intros Hs. apply session_footprint in Hs.
  destruct Hs
    as (Hs & Hnn & Hsb & Hts & Htb & H0s & H0b & Hls & Hlb & Htitle & Hframe).
  simpl. unfold free.
  destruct (buf (fb s) =? NULL) eqn:E1; [lia |].
  destruct (self s =? NULL) eqn:E2; [lia |].
  apply map_eq. intros q.
  destruct (title_copy (fb s) =? NULL) eqn:E3.
  - assert (title_copy (fb s) = NULL) as Ht by lia.
    rewrite !lookup_delete. repeat case_decide; subst; try done.
    apply Hframe; auto.
  - destruct Htitle as [E | [Ht0 _]]; [lia |].
    rewrite !lookup_delete. repeat case_decide; subst; try done.
    apply Hframe; auto.
Qed.

Lemma close_restores_heap_witness :
  session ∅ Demo.the_title Demo.resized_up /\
  fenster_bridge_close (Handle Demo.resized_up) = ∅.
Proof.
  split; [exact demo_session_resized_up |].
  exact (close_restores_heap ∅ Demo.the_title Demo.resized_up
           demo_session_resized_up).
Defined.

(** X2: the title copy made by create is never moved or written: as long
    as the handle lives, and unless the duplication failed at create,
    [title_copy] addresses a live block holding the bytes of the title and
    the terminating zero, whatever was copied into the pixel buffer
    meanwhile. *)
Theorem title_copy_intact `{L : Library} (m0 : gmap Z (list byte))
    (str : list byte) (s : state) :
  session m0 str s ->
  title_copy (fb s) <> NULL ->
  mem s !! title_copy (fb s) = Some (str ++ [x00]).
Proof.
  intros Hs Ht. apply session_footprint in Hs.
  destruct Hs as (_ & _ & _ & _ & _ & _ & _ & _ & _ & Htitle & _).
  destruct Htitle as [E | [_ E]]; [done | exact E].
Qed.

Lemma title_copy_intact_witness :
  session ∅ Demo.the_title Demo.resized_up /\
  title_copy (fb Demo.resized_up) <> NULL /\
  mem Demo.resized_up !! title_copy (fb Demo.resized_up)
    = Some [x69; x6e; x6b; x00].
Proof.
  assert (title_copy (fb Demo.resized_up) <> NULL) as Ht by discriminate.
  split; [exact demo_session_resized_up |]. split; [exact Ht |].
  exact (title_copy_intact ∅ Demo.the_title Demo.resized_up
           demo_session_resized_up Ht).
Defined.



(** ** The buffer pointer between reallocations *)

(** X4: the address returned by [fenster_bridge_get_buf] changes exactly
    when an open or a loop reallocates.  Every other call (the accessors,
    copy_buf, get_resized, set_scale, a refused open, an open or a loop
    that sees no change or gets no memory) returns the handle with the same
    buffer address, and, copy_buf apart, with the same heap.  After a
    reallocating call the address is a different one and the old address
    is no longer live. *)
Theorem get_buf_moves_only_on_reallocation `{L : Library}
    (m0 : gmap Z (list byte)) (str : list byte) (c : call) (s s' : state) :
  session m0 str s ->
  step c s = Some s' ->
  (~ reallocates c s ->
   fenster_bridge_get_buf s' = fenster_bridge_get_buf s /\
   ((forall src n, c <> CopyBuf src n) -> mem s' = mem s)) /\
  (reallocates c s ->
   fenster_bridge_get_buf s' <> fenster_bridge_get_buf s /\
   mem s' !! fenster_bridge_get_buf s = None /\
   is_Some (mem s' !! fenster_bridge_get_buf s')).
Proof.
  intros Hs Hc. apply session_footprint in Hs.
  destruct Hs as (_ & Hnn & _ & _ & _ & _ & _ & _ & Hlb & _).
  unfold fenster_bridge_get_buf.
  destruct c; simpl in Hc |- *;
    try (inversion Hc; subst; split; [split; done | done]).
  - (* open *)
    inversion Hc; subst; clear Hc.
    apply (open_paths ev a s
             (fun r => (~ _ -> buf (fb r.2) = _ /\ (_ -> mem r.2 = _)) /\
                       (_ -> buf (fb r.2) <> _ /\ mem r.2 !! _ = None /\
                             is_Some (mem r.2 !! buf (fb r.2)))));
      simpl.
    + intros Hr. split; [done |]. intros (Hr' & _). done.
    + intros Hr Hkept. split; [done |]. intros (_ & Hd & Hp).
      destruct Hkept as [E | [_ E]]; congruence.
    + intros Hr Hd Hp. split; [intros Hn; by destruct Hn |]. intros _.
      destruct (request_granted _ _ _ Hp) as (Ha & Hfresh & blk & ->).
      assert (a <> buf (fb s)) as Hne
        by (intros ->; destruct Hlb; congruence).
      unfold free. destruct (buf (fb s) =? NULL) eqn:E0; [lia |].
      rewrite lookup_delete_eq, lookup_delete_ne, lookup_insert_eq by done.
      eauto.
  - (* loop *)
    inversion Hc; subst; clear Hc.
    apply (loop_paths ev a s
             (fun r => (~ _ -> buf (fb r.2) = _ /\ (_ -> mem r.2 = _)) /\
                       (_ -> buf (fb r.2) <> _ /\ mem r.2 !! _ = None /\
                             is_Some (mem r.2 !! buf (fb r.2)))));
      simpl.
    + intros Hkept. split; [done |]. intros (Hd & Hp).
      destruct Hkept as [E | [_ E]]; congruence.
    + intros Hd Hp. split; [intros Hn; by destruct Hn |]. intros _.
      destruct (request_granted _ _ _ Hp) as (Ha & Hfresh & blk & ->).
      assert (a <> buf (fb s)) as Hne
        by (intros ->; destruct Hlb; congruence).
      unfold free. destruct (buf (fb s) =? NULL) eqn:E0; [lia |].
      rewrite lookup_delete_eq, lookup_delete_ne, lookup_insert_eq by done.
      eauto.
  - (* copy_buf *)
    apply copy_buf_cases in Hc as (old & _ & _ & _ & ->). simpl.
    split; [| done]. intros _. split; [done |].
    intros Hn. by destruct (Hn src byte_length).
  - (* set_scale *)
    apply set_scale_cases in Hc as (pw & ph & _ & _ & ->). simpl.
    split; [split; done | done].
Qed.

Lemma get_buf_moves_only_on_reallocation_witness :
  session ∅ Demo.the_title Demo.s0 /\
  reallocates (Loop (L := Demo.library) Demo.dense 8192) Demo.s0 /\
  fenster_bridge_get_buf Demo.resized_up <> fenster_bridge_get_buf Demo.s0 /\
  mem Demo.resized_up !! fenster_bridge_get_buf Demo.s0 = None.
Proof.
  assert (session ∅ Demo.the_title Demo.s0) as Hs
    by exact (session_create (L := Demo.library) ∅ Demo.the_title
                16 2048 4096 4 3 Demo.s0 demo_made).
  assert (reallocates (Loop (L := Demo.library) Demo.dense 8192) Demo.s0)
    as Hr by (split; [reflexivity | discriminate]).
  split; [exact Hs |]. split; [exact Hr |].
  destruct (proj2 (get_buf_moves_only_on_reallocation ∅ Demo.the_title
                     (Loop (L := Demo.library) Demo.dense 8192)
                     Demo.s0 Demo.resized_up Hs eq_refl) Hr)
    as (H1 & H2 & _).
  split; [exact H1 | exact H2].
Defined.

(** ** What the accessors see *)

(** X5: open and loop hand the library's window state through: whatever
    happens to the buffer (no change, reallocation, allocation failure,
    refused open), the key table, the modifier mask, the logical size, the
    scale, the physical size, the title pointer and the platform members
    seen by the accessors after the call are those the library left. *)
Theorem library_state_passes_through `{L : Library} (c : call)
    (s s' : state) (w : fenster platform ximage) :
  step c s = Some s' ->
  handed_back c s = Some w ->
  fenster_bridge_get_keys s' = keys w /\
  fenster_bridge_get_mod s' = mod_ w /\
  fenster_bridge_get_size s' = (width w, height w) /\
  fenster_bridge_get_scale s' = scale w /\
  phys_size s' = (phys_width w, phys_height w) /\
  title (f (fb s')) = title w /\
  rest (f (fb s')) = rest w.
Proof.
  unfold fenster_bridge_get_keys, fenster_bridge_get_mod,
    fenster_bridge_get_size, fenster_bridge_get_scale, phys_size.
  intros Hc Hw. destruct c; simpl in Hc, Hw; try done;
    inversion Hc; subst s'; inversion Hw; subst w; clear Hc Hw.
  - apply (open_paths ev a s
             (fun r => keys (f (fb r.2)) = _ /\ mod_ (f (fb r.2)) = _ /\
                       (width (f (fb r.2)), height (f (fb r.2))) = _ /\
                       scale (f (fb r.2)) = _ /\
                       (phys_width (f (fb r.2)), phys_height (f (fb r.2))) = _ /\
                       title (f (fb r.2)) = _ /\ rest (f (fb r.2)) = _));
      simpl; intros; repeat split.
  - apply (loop_paths ev a s
             (fun r => keys (f (fb r.2)) = _ /\ mod_ (f (fb r.2)) = _ /\
                       (width (f (fb r.2)), height (f (fb r.2))) = _ /\
                       scale (f (fb r.2)) = _ /\
                       (phys_width (f (fb r.2)), phys_height (f (fb r.2))) = _ /\
                       title (f (fb r.2)) = _ /\ rest (f (fb r.2)) = _));
      simpl; intros; [repeat split |].
    destruct x11; simpl; repeat split.
Qed.

Lemma library_state_passes_through_witness :
  handed_back (Loop (L := Demo.library) Demo.dense 8192) Demo.s0
    = Some (Demo.present Demo.dense (f (fb Demo.s0))) /\
  fenster_bridge_get_size Demo.resized_up = (4, 3) /\
  fenster_bridge_get_scale Demo.resized_up = Demo.two /\
  phys_size Demo.resized_up = (8, 6).
Proof.
  split; [reflexivity |].
  destruct (library_state_passes_through
              (Loop (L := Demo.library) Demo.dense 8192)
              Demo.s0 Demo.resized_up _ eq_refl eq_refl)
    as (_ & _ & H1 & H2 & H3 & _).
  split; [exact H1 |]. split; [exact H2 | exact H3].
Defined.

(** X6: the bridge itself never writes the input state: no call other
    than open and loop (where the library writes it) changes the key
    table, the modifier mask, the logical size, the title pointer or the
    image; and the scale and the physical size change, outside open and
    loop, only by set_scale. *)
Theorem input_state_is_the_librarys `{L : Library} (c : call)
    (s s' : state) :
  step c s = Some s' ->
  handed_back c s = None ->
  fenster_bridge_get_keys s' = fenster_bridge_get_keys s /\
  fenster_bridge_get_mod s' = fenster_bridge_get_mod s /\
  fenster_bridge_get_size s' = fenster_bridge_get_size s /\
  title (f (fb s')) = title (f (fb s)) /\
  img (f (fb s')) = img (f (fb s)) /\
  ((forall x, c <> SetScale x) ->
   fenster_bridge_get_scale s' = fenster_bridge_get_scale s /\
   phys_size s' = phys_size s).
Proof.
  unfold fenster_bridge_get_keys, fenster_bridge_get_mod,
    fenster_bridge_get_size, fenster_bridge_get_scale, phys_size.
  intros Hc Hw. destruct c; simpl in Hc, Hw; try done;
    try (inversion Hc; subst s'; repeat split; done).
  - apply copy_buf_cases in Hc as (old & _ & _ & _ & ->). repeat split.
  - apply set_scale_cases in Hc as (pw & ph & _ & _ & ->). simpl.
    do 5 (split; [reflexivity |]). intros Hn. exfalso.
    eapply Hn. reflexivity.
Qed.

Lemma input_state_is_the_librarys_witness :
  step (CopyBuf (L := Demo.library) [x01; x02] 2) Demo.resized_up
    = fenster_bridge_copy_buf Demo.resized_up [x01; x02] 2 /\
  exists s',
    fenster_bridge_copy_buf Demo.resized_up [x01; x02] 2 = Some s' /\
    fenster_bridge_get_size s' = (4, 3) /\
    fenster_bridge_get_scale s' = Demo.two.
Proof.
  split; [reflexivity |].
  destruct (fenster_bridge_copy_buf Demo.resized_up [x01; x02] 2)
    as [s' |] eqn:E; [| discriminate E].
  exists s'. split; [reflexivity |].
  destruct (input_state_is_the_librarys
              (CopyBuf (L := Demo.library) [x01; x02] 2)
              Demo.resized_up s' E eq_refl)
    as (_ & _ & H1 & _ & _ & H2).
  destruct H2 as [H2 _]; [discriminate |].
  split; [by rewrite H1 | by rewrite H2].
Defined.

(** ** More on the resize flag *)

Lemma flag_stays_raised `{L : Library} (c : call) (s s' : state) :
  step c s = Some s' -> resized (fb s) = 1 -> c <> GetResized ->
  resized (fb s') = 1.
Proof.
  intros Hc H1 Hn.
  destruct (Z.eq_dec (resized (fb s')) (resized (fb s))) as [E | E];
    [congruence |].
  destruct (flag_raised_by c s s' Hc E) as [[_ E'] | [E' _]]; done.
Qed.

(** X7: a resize is never lost.  Once the flag is raised it stays raised
    through any defined calls other than get_resized (further loops and
    reallocations, opens, copies, scale changes), and the next
    get_resized returns 1 together with the physical size of that moment;
    several resizes in a row are thus reported once. *)
Theorem resize_is_never_lost `{L : Library} (cs : list call)
    (s s' : state) :
  resized (fb s) = 1 ->
  GetResized ∉ cs ->
  run cs s = Some s' ->
  (fenster_bridge_get_resized s').1
    = (1, phys_width (f (fb s')), phys_height (f (fb s'))).
Proof.
  revert s. induction cs as [| c cs IH]; intros s H1 Hn Hrun; simpl in Hrun.
  - inversion Hrun; subst. unfold fenster_bridge_get_resized; simpl.
    by rewrite H1.
  - destruct (step c s) as [s1 |] eqn:Hc; [| done]. simpl in Hrun.
    apply not_elem_of_cons in Hn as [Hc' Hn].
    apply (IH s1); [| done | done].
    apply (flag_stays_raised c s s1 Hc H1). congruence.
Qed.

Lemma resize_is_never_lost_witness :
  resized (fb Demo.resized_up) = 1 /\
  (GetResized ∉ Demo.later_calls) /\
  exists s',
    run Demo.later_calls Demo.resized_up = Some s' /\
    (fenster_bridge_get_resized s').1.1.1 = 1.
Proof.
  assert (GetResized ∉ Demo.later_calls) as Hn.
  { intros H. unfold Demo.later_calls in H.
    repeat (apply elem_of_cons in H as [H | H]; [discriminate H |]).
    by apply elem_of_nil in H. }
  split; [reflexivity |]. split; [exact Hn |].
  destruct (run Demo.later_calls Demo.resized_up) as [s' |] eqn:E;
    [| discriminate E].
  exists s'. split; [reflexivity |].
  by rewrite (resize_is_never_lost _ Demo.resized_up s' eq_refl Hn E).
Defined.

(** X8: the resize flag is a boolean: in every state of a session it is 0
    or 1, so that get_resized returns 0 or 1 and nothing else. *)
Theorem resize_flag_is_boolean `{L : Library} (m0 : gmap Z (list byte))
    (str : list byte) (s : state) :
  session m0 str s ->
  (fenster_bridge_get_resized s).1.1.1 = 0 \/
  (fenster_bridge_get_resized s).1.1.1 = 1.
Proof.
  unfold fenster_bridge_get_resized; simpl.
  induction 1 as [a_fb a_buf a_title w h s Hc | c s s' _ IH Hc].
  - destruct (create_cases m0 a_fb a_buf a_title str w h)
      as [[E _] | (t & m3 & _ & _ & _ & _ & _ & _ & _ & E)];
      rewrite E in Hc; [done |].
    inversion Hc; subst. by left.
  - destruct (Z.eq_dec (resized (fb s')) (resized (fb s))) as [E | E];
      [by rewrite E |].
    destruct (flag_raised_by c s s' Hc E) as [[E' _] | [E' _]]; auto.
Qed.

Lemma resize_flag_is_boolean_witness :
  session ∅ Demo.the_title Demo.resized_up /\
  ((fenster_bridge_get_resized Demo.resized_up).1.1.1 = 0 \/
   (fenster_bridge_get_resized Demo.resized_up).1.1.1 = 1).
Proof.
  split; [exact demo_session_resized_up |].
  exact (resize_flag_is_boolean ∅ Demo.the_title Demo.resized_up
           demo_session_resized_up).
Defined.

(** ** Mismatches between the cache and the physical size *)

Lemma buffer_length_by_reachable `{L : Library} (HL : LibraryOk L)
    (s : state) :
  reachable s ->
  buffer_length s = Some (prev_width (fb s) * prev_height (fb s) * 4).
Proof. intros Hs. by destruct (reachable_owned HL s Hs) as (_ & _ & _ & H). Qed.

(** X9: a loop leaves the cached dimensions different from the physical
    ones exactly when it detected a change and its allocation failed; the
    handle is then as the library left it, with the heap, the buffer, the
    flag and the cache untouched, so that the next loop detects the same
    change again.  After every other loop the cache agrees with the
    physical size. *)
Theorem loop_mismatch_iff_starved `{L : Library} (ev : event) (a : Z)
    (s : state) :
  (does_differ (fb (fenster_bridge_loop ev a s).2) = true <->
   does_differ (pumped ev s) = true /\
   (request (pumped ev s) (mem s) a).2 = NULL) /\
  (does_differ (fb (fenster_bridge_loop ev a s).2) = true ->
   (fenster_bridge_loop ev a s).2 = update s (mem s) (pumped ev s)).
Proof.
  destruct (does_differ (pumped ev s)) eqn:Hd.
  - destruct (Z.eq_dec (request (pumped ev s) (mem s) a).2 NULL) as [Hp | Hp].
    + rewrite (loop_no_memory ev a s Hd Hp). simpl. rewrite Hd.
      split; [split; auto | done].
    + pose proof (loop_resyncs ev a s (fun _ => Hp)) as Hsync.
      rewrite Hsync. split; [split |]; [done | intros [_ E]; done | done].
  - pose proof (loop_resyncs ev a s) as Hsync.
    rewrite Hsync by (intros E; congruence).
    split; [split |]; [done | intros [E _]; done | done].
Qed.

Lemma loop_mismatch_iff_starved_witness :
  does_differ (pumped (L := Demo.library) Demo.dense Demo.s0) = true /\
  (request (pumped (L := Demo.library) Demo.dense Demo.s0)
     (mem Demo.s0) NULL).2 = NULL /\
  does_differ (fb Demo.starved) = true.
Proof.
  split; [reflexivity |]. split; [reflexivity |].
  exact (proj2 (proj1 (loop_mismatch_iff_starved (L := Demo.library)
                         Demo.dense NULL Demo.s0))
           (conj eq_refl eq_refl)).
Defined.

(** X10: a pending mismatch is picked up by the next loop, once.  From a
    reachable state whose physical size differs from the cache (set_scale
    was called, or an earlier allocation failed), a loop in which the
    library leaves the physical size as it is and the allocation succeeds
    installs a buffer of the physical size at the new address and raises
    the flag; a further loop in which the physical size is still the same
    changes nothing: same heap, same buffer, same flag. *)
Theorem pending_mismatch_is_picked_up `{L : Library} (HL : LibraryOk L)
    (s : state) (ev : event) (a : Z) :
  reachable s ->
  does_differ (fb s) = true ->
  (phys_width (fenster_loop ev (f (fb s))).2,
   phys_height (fenster_loop ev (f (fb s))).2) = phys_size s ->
  (request (pumped ev s) (mem s) a).2 <> NULL ->
  let s1 := (fenster_bridge_loop ev a s).2 in
  fenster_bridge_get_buf s1 = a /\
  buffer_length s1 = Some ((phys_size s).1 * (phys_size s).2 * 4) /\
  (fenster_bridge_get_resized s1).1
    = (1, (phys_size s).1, (phys_size s).2) /\
  (forall (ev' : event) (a' : Z),
     (phys_width (fenster_loop ev' (f (fb s1))).2,
      phys_height (fenster_loop ev' (f (fb s1))).2) = phys_size s ->
     (fenster_bridge_loop ev' a' s1).2 = update s1 (mem s1) (pumped ev' s1)).
Proof.
  intros Hs Hpending Hsame Hp s1.
  unfold phys_size in Hsame. inversion Hsame as [[Hw Hh]].
  assert (does_differ (pumped ev s) = true) as Hd.
  { apply does_differ_true. apply does_differ_true in Hpending.
    unfold pumped; simpl. by rewrite Hw, Hh. }
  assert (s1 = (fenster_bridge_loop ev a s).2) as Hs1 by reflexivity.
  rewrite (loop_reallocated ev a s Hd Hp) in Hs1. simpl in Hs1.
  pose proof (buffer_length_by_reachable HL s1) as Hlen.
  assert (phys_size s1 = phys_size s) as Hphys.
  { rewrite Hs1. unfold phys_size; simpl.
    destruct x11; simpl; by rewrite Hw, Hh. }
  assert (prev_width (fb s1) = phys_width (f (fb s)) /\
          prev_height (fb s1) = phys_height (f (fb s))) as [Hpw Hph]
    by (rewrite Hs1; simpl; by rewrite Hw, Hh).
  split; [by rewrite Hs1 |]. split; [| split].
  - rewrite Hlen; [by rewrite Hpw, Hph |].
    exact (reach_step (Loop ev a) s s1 Hs eq_refl).
  - unfold fenster_bridge_get_resized; simpl.
    unfold phys_size in Hphys. inversion Hphys as [[E1 E2]].
    rewrite E1, E2. by rewrite Hs1.
  - intros ev' a' Hsame'. inversion Hsame' as [[Hw' Hh']].
    assert (does_differ (pumped ev' s1) = false) as Hd'.
    { apply does_differ_false. unfold pumped; simpl.
      by rewrite Hw', Hh', Hpw, Hph. }
    by rewrite (loop_in_sync ev' a' s1 Hd').
Qed.

Lemma pending_mismatch_is_picked_up_witness :
  LibraryOk Demo.library /\ reachable Demo.scaled_up /\
  does_differ (fb Demo.scaled_up) = true /\
  fenster_bridge_get_buf
    (fenster_bridge_loop (L := Demo.library) Demo.dense 8192
       Demo.scaled_up).2 = 8192 /\
  (fenster_bridge_get_resized
     (fenster_bridge_loop (L := Demo.library) Demo.dense 8192
        Demo.scaled_up).2).1
    = (1, (phys_size Demo.scaled_up).1, (phys_size Demo.scaled_up).2).
Proof.
  split; [exact demo_library_ok |].
  split; [exact demo_scaled_up_reachable |]. split; [reflexivity |].
  assert ((request (pumped (L := Demo.library) Demo.dense Demo.scaled_up)
             (mem Demo.scaled_up) 8192).2 <> NULL) as Hp by discriminate.
  destruct (pending_mismatch_is_picked_up demo_library_ok Demo.scaled_up
              Demo.dense 8192 demo_scaled_up_reachable eq_refl eq_refl Hp)
    as (H1 & _ & H2 & _).
  split; [exact H1 | exact H2].
Defined.

(** ** The bounds of copy_buf *)

Lemma int_area_bound a b :
  is_int a -> is_int b -> a * b * 4 < SIZE_MOD ->
  a * b * 4 <= SIZE_MOD - 2 ^ 33.
Proof.
  unfold is_int, INT_MIN, INT_MAX, SIZE_MOD. intros Ha Hb Hlt.
  destruct (Z_le_gt_dec 0 a) as [Ha0 | Ha0];
    destruct (Z_le_gt_dec 0 b) as [Hb0 | Hb0]; nia.
Qed.

Section Bounds.
Context {L : Library}.
Implicit Types (s : state) (ev : event) (a : Z).

Lemma request_fits (b : fenster_bridge) (m : gmap Z (list byte)) a :
  is_int (phys_width (f b)) -> is_int (phys_height (f b)) ->
  (request b m a).2 <> NULL ->
  phys_width (f b) * phys_height (f b) * 4 < SIZE_MOD.
Proof.
  intros Hw Hh. unfold request.
  destruct (calloc _ _ _ _) as [m' p] eqn:E. simpl. intros Hp.
  apply calloc_cases in E as [[-> _] | (_ & _ & _ & Hsz & _)]; [done |].
  destruct (pixels_exact _ _ Hw Hh Hsz) as [Hpx _].
  rewrite Hpx in Hsz. unfold sizeof_uint32 in Hsz. lia.
Qed.

(** The cached area never reaches the range of [size_t]. *)
Lemma cached_area_fits (HL : LibraryOk L) s :
  reachable s -> prev_width (fb s) * prev_height (fb s) * 4 < SIZE_MOD.
Proof.
  induction 1 as [m a_fb a_buf a_title str w h s Hw Hh Hc | c s s' _ IH Hc].
  - destruct (create_buffer _ _ _ _ _ _ _ _ Hc) as [Hsz _].
    destruct (pixels_exact w h Hw Hh Hsz) as [Hpx _].
    destruct (create_cases m a_fb a_buf a_title str w h)
      as [[E _] | (t & m3 & _ & _ & _ & _ & _ & _ & _ & E)];
      rewrite E in Hc; [done |].
    inversion Hc; subst; simpl. rewrite Hpx in Hsz.
    unfold sizeof_uint32 in Hsz. lia.
  - destruct c; simpl in Hc; try (inversion Hc; subst; exact IH).
    + inversion Hc; subst; clear Hc.
      apply (open_paths ev a s
               (fun r => prev_width (fb r.2) * prev_height (fb r.2) * 4
                         < SIZE_MOD)); simpl; try done.
      intros _ _ Hp.
      destruct (open_phys_int _ HL ev (f (fb s))) as [Hpw Hph].
      exact (request_fits (opened ev s) (mem s) a Hpw Hph Hp).
    + inversion Hc; subst; clear Hc.
      apply (loop_paths ev a s
               (fun r => prev_width (fb r.2) * prev_height (fb r.2) * 4
                         < SIZE_MOD)); simpl; try done.
      intros _ Hp.
      destruct (loop_phys_int _ HL ev (f (fb s))) as [Hpw Hph].
      exact (request_fits (pumped ev s) (mem s) a Hpw Hph Hp).
    + apply copy_buf_cases in Hc as (old & _ & _ & _ & ->). exact IH.
    + apply set_scale_cases in Hc as (pw & ph & _ & _ & ->). exact IH.
Qed.

End Bounds.

(** X11: on a reachable handle, copy_buf with an [int] byte length [n] is
    defined exactly when [0 <= n], [n] is at most the length of the buffer
    and the source region holds at least [n] bytes.  In particular a
    negative byte length is never in bounds: converted to [size_t] it
    exceeds the length of every buffer the bridge can hold. *)
Theorem copy_buf_defined_iff `{L : Library} (HL : LibraryOk L) (s : state)
    (src : list byte) (n : Z) :
  reachable s -> is_int n ->
  exists len,
    buffer_length s = Some len /\
    (is_Some (fenster_bridge_copy_buf s src n) <->
     0 <= n <= len /\ n <= Z.of_nat (length src)).
Proof.
  intros Hs Hn.
  pose proof (cached_area_fits HL s Hs) as Hfit.
  destruct (reachable_owned HL s Hs) as (_ & Hw & Hh & Hlen).
  pose proof (int_area_bound _ _ Hw Hh Hfit) as Hbound.
  exists (prev_width (fb s) * prev_height (fb s) * 4).
  split; [exact Hlen |].
  unfold buffer_length, buffer in Hlen.
  unfold fenster_bridge_copy_buf, memcpy.
  destruct (mem s !! buf (fb s)) as [old |] eqn:Hold; [| done].
  simpl in Hlen. inversion Hlen as [Hl]. rewrite Hl.
  unfold is_int, INT_MIN, INT_MAX in Hn. unfold SIZE_MOD in *.
  destruct (Z_le_gt_dec 0 n) as [Hpos | Hneg].
  - assert (size_t_of_int n = n) as ->
      by (unfold size_t_of_int, SIZE_MOD; apply Z.mod_small; lia).
    destruct (n <=? _) eqn:E1; destruct (n <=? Z.of_nat (length src)) eqn:E2;
      simpl; split; try (intros [? ?]; done); try lia; eauto.
  - assert (size_t_of_int n = n + 2 ^ 64) as ->.
    { unfold size_t_of_int, SIZE_MOD.
      rewrite <- (Z.mod_add n 1 (2 ^ 64)) by lia.
      apply Z.mod_small. lia. }
    destruct (n + 2 ^ 64 <=? _) eqn:E1; [lia |]. simpl.
    split; [intros [? ?]; done | lia].
Qed.

Lemma copy_buf_defined_iff_witness :
  LibraryOk Demo.library /\ reachable Demo.s0 /\ is_int (-1) /\
  fenster_bridge_copy_buf Demo.s0 [x01; x02] (-1) = None.
Proof.
  assert (is_int (-1)) as Hn by (unfold is_int, INT_MIN, INT_MAX; lia).
  split; [exact demo_library_ok |]. split; [exact demo_s0_reachable |].
  split; [exact Hn |].
  destruct (copy_buf_defined_iff demo_library_ok Demo.s0 [x01; x02] (-1)
              demo_s0_reachable Hn) as (len & _ & Hiff).
  destruct (fenster_bridge_copy_buf Demo.s0 [x01; x02] (-1)) as [s' |];
    [| reflexivity].
  assert (0 <= -1 <= len /\ -1 <= Z.of_nat (length [x01; x02])) as [H _]
    by (apply Hiff; eauto).
  lia.
Defined.

(** ** Copies one after another *)

Lemma size_t_of_byte_length n :
  is_int n -> 0 <= n -> size_t_of_int n = n.
Proof.
  unfold is_int, INT_MAX, size_t_of_int, SIZE_MOD. intros Hn H0.
  apply Z.mod_small. lia.
Qed.

(** X12: of two copies into the buffer, the later and longer one wins:
    copying [n1] bytes of one source and then [n2 >= n1] bytes of another
    leaves the handle exactly as the second copy alone does; nothing of
    the first source survives. *)
Theorem copy_buf_later_write_wins `{L : Library} (s : state)
    (src1 src2 old : list byte) (n1 n2 : Z) :
  buffer s = Some old ->
  is_int n1 -> is_int n2 -> 0 <= n1 <= n2 ->
  n2 <= Z.of_nat (length old) ->
  n1 <= Z.of_nat (length src1) -> n2 <= Z.of_nat (length src2) ->
  (s1 ← fenster_bridge_copy_buf s src1 n1;
   fenster_bridge_copy_buf s1 src2 n2)
  = fenster_bridge_copy_buf s src2 n2 /\
  is_Some (fenster_bridge_copy_buf s src2 n2).
Proof.
  intros Hold Hi1 Hi2 Hn Hlen Hs1 Hs2. unfold buffer in Hold.
  assert ((n1 <=? Z.of_nat (length old)) = true) as E1 by lia.
  assert ((n1 <=? Z.of_nat (length src1)) = true) as E2 by lia.
  assert ((n2 <=? Z.of_nat (length old)) = true) as E3 by lia.
  assert ((n2 <=? Z.of_nat (length src2)) = true) as E4 by lia.
  assert (length (take (Z.to_nat n1) src1) = Z.to_nat n1) as Htake
    by (rewrite length_take; lia).
  unfold fenster_bridge_copy_buf, memcpy.
  rewrite !size_t_of_byte_length by (done || lia).
  rewrite Hold, E1, E2, E3, E4. simpl.
  rewrite lookup_insert_eq.
  rewrite length_app, Htake, length_drop.
  replace (Z.to_nat n1 + (length old - Z.to_nat n1))%nat
    with (length old) by lia.
  rewrite E3. simpl.
  split; [| eauto]. unfold update; simpl. do 2 f_equal.
  rewrite insert_insert_eq. do 2 f_equal.
  rewrite drop_app_ge by lia. rewrite Htake, drop_drop. f_equal. lia.
Qed.

Lemma copy_buf_later_write_wins_witness :
  buffer Demo.s0 = Some (replicate 48 x00) /\
  (s1 ← fenster_bridge_copy_buf Demo.s0 [x01; x02; x03] 2;
   fenster_bridge_copy_buf s1 [x0a; x0b; x0c] 3)
  = fenster_bridge_copy_buf Demo.s0 [x0a; x0b; x0c] 3.
Proof.
  split; [reflexivity |].
  assert (is_int 2 /\ is_int 3) as [H2 H3]
    by (unfold is_int, INT_MIN, INT_MAX; lia).
  refine (proj1 (copy_buf_later_write_wins Demo.s0 [x01; x02; x03]
                   [x0a; x0b; x0c] (replicate 48 x00) 2 3
                   eq_refl H2 H3 _ _ _ _)); simpl; lia.
Defined.

(** X13: a copy of zero bytes is the identity on a handle with a live
    buffer, whatever the source region. *)
Theorem copy_buf_nothing `{L : Library} (s : state) (src : list byte) :
  is_Some (buffer s) -> fenster_bridge_copy_buf s src 0 = Some s.
Proof.
  intros [old Hold]. unfold buffer in Hold.
  unfold fenster_bridge_copy_buf, memcpy, size_t_of_int.
  rewrite Hold, Z.mod_0_l by done.
  assert ((0 <=? Z.of_nat (length old)) = true) as ->
    by (apply Z.leb_le; lia).
  assert ((0 <=? Z.of_nat (length src)) = true) as ->
    by (apply Z.leb_le; lia).
  simpl. rewrite insert_id by done. by destruct s.
Qed.

Lemma copy_buf_nothing_witness :
  is_Some (buffer Demo.resized_up) /\
  fenster_bridge_copy_buf Demo.resized_up [] 0 = Some Demo.resized_up.
Proof.
  assert (is_Some (buffer Demo.resized_up)) as H by (eexists; reflexivity).
  split; [exact H |].
  exact (copy_buf_nothing Demo.resized_up [] H).
Defined.

(** ** Degenerate sizes at create *)

(** X14: create never hands out a buffer for an area that is negative or
    too large: for [int] dimensions with [w * h < 0] (exactly one of them
    negative) or with [w * h * 4] beyond [size_t], the request made to
    [calloc] is refused as an overflow whatever the allocator has left,
    create returns [NULL], and the heap is as it was. *)
Theorem create_rejects_bad_area `{L : Library} (m : gmap Z (list byte))
    (a_fb a_buf a_title : Z) (str : list byte) (w h : Z) :
  is_int w -> is_int h ->
  w * h < 0 \/ SIZE_MOD <= w * h * 4 ->
  fenster_bridge_create m a_fb a_buf a_title str w h = Null m.
Proof.
  intros Hw Hh Hbad.
  destruct (create_cases m a_fb a_buf a_title str w h)
    as [[E _] | (t & m3 & _ & _ & _ & _ & _ & Hsz & _ & _)]; [exact E |].
  destruct (pixels_exact w h Hw Hh Hsz) as [Hpx Hpos].
  rewrite Hpx in Hsz. unfold sizeof_uint32 in Hsz. lia.
Qed.

Lemma create_rejects_bad_area_witness :
  is_int (-4) /\ is_int 3 /\ (-4 * 3 < 0 \/ SIZE_MOD <= -4 * 3 * 4) /\
  fenster_bridge_create (L := Demo.library) ∅ 16 2048 4096
    Demo.the_title (-4) 3 = Null ∅.
Proof.
  assert (is_int (-4) /\ is_int 3) as [H4 H3]
    by (unfold is_int, INT_MIN, INT_MAX; lia).
  assert (-4 * 3 < 0 \/ SIZE_MOD <= -4 * 3 * 4) as Hbad by (left; lia).
  do 3 (split; [done |]).
  exact (create_rejects_bad_area (L := Demo.library) ∅ 16 2048 4096
           Demo.the_title (-4) 3 H4 H3 Hbad).
Defined.

(** X15: create with a width or a height of 0 is deterministic up to the
    allocator: it returns [NULL], or a handle whose buffer is a live block
    of length 0; into such a buffer no copy of a non-zero byte length is
    defined. *)
Theorem create_empty_buffer `{L : Library} (m : gmap Z (list byte))
    (a_fb a_buf a_title : Z) (str : list byte) (w h : Z) (s : state) :
  w = 0 \/ h = 0 ->
  fenster_bridge_create m a_fb a_buf a_title str w h = Handle s ->
  buffer s = Some [] /\
  fenster_bridge_get_buf s <> NULL /\
  (forall src n, is_int n -> n <> 0 ->
                 fenster_bridge_copy_buf s src n = None).
Proof.
  intros Hzero Hc.
  assert (pixels w h = 0) as Hpx.
  { unfold pixels, size_mul, size_t_of_int.
    destruct Hzero as [-> | ->]; rewrite (Z.mod_0_l SIZE_MOD) by done;
      [change (0 * (h `mod` SIZE_MOD)) with 0 | rewrite Z.mul_0_r];
      by rewrite Z.mod_0_l. }
  destruct (create_buffer _ _ _ _ _ _ _ _ Hc) as [_ Hblk].
  rewrite Hpx in Hblk. simpl in Hblk.
  split; [exact Hblk |]. split.
  - destruct (create_cases m a_fb a_buf a_title str w h)
      as [[E _] | (t & m3 & _ & _ & _ & Hb & _ & _ & _ & E)];
      rewrite E in Hc; [done |].
    by inversion Hc; subst.
  - intros src n Hn Hn0. unfold buffer in Hblk.
    unfold fenster_bridge_copy_buf, memcpy. rewrite Hblk. simpl.
    assert (0 < size_t_of_int n) as Hpos.
    { unfold size_t_of_int, SIZE_MOD, is_int, INT_MIN, INT_MAX in *.
      destruct (Z_le_gt_dec 0 n).
      - rewrite Z.mod_small by lia. lia.
      - rewrite <- (Z.mod_add n 1 (2 ^ 64)) by lia.
        rewrite Z.mod_small by lia. lia. }
    unfold size_t_of_int in *.
    destruct (n `mod` SIZE_MOD <=? Z.of_nat 0) eqn:E; [| reflexivity].
    apply Z.leb_le in E. simpl in E. lia.
Qed.

Lemma create_empty_buffer_witness :
  (0 = 0 \/ 3 = 0) /\
  exists s,
    fenster_bridge_create (L := Demo.library) ∅ 16 2048 4096
      Demo.the_title 0 3 = Handle s /\
    buffer s = Some [] /\
    fenster_bridge_copy_buf s [x01] 1 = None.
Proof.
  assert (0 = 0 \/ 3 = 0) as Hz by (left; reflexivity).
  split; [exact Hz |].
  destruct (fenster_bridge_create (L := Demo.library) ∅ 16 2048 4096
              Demo.the_title 0 3) as [s | m] eqn:E; [| discriminate E].
  exists s. split; [reflexivity |].
  destruct (create_empty_buffer (L := Demo.library) ∅ 16 2048 4096
              Demo.the_title 0 3 s Hz E) as (H1 & _ & H2).
  split; [exact H1 |]. apply H2; [| lia].
  unfold is_int, INT_MIN, INT_MAX; lia.
Defined.

(** ** Scale factors that are not numbers *)

(** X16: set_scale is undefined for a scale factor that is NaN or an
    infinity, on every handle: whatever the logical size, the product is
    NaN or infinite, and its conversion to [int] is undefined. *)
Theorem set_scale_needs_a_finite_scale `{L : Library} (s : state)
    (sign : bool) :
  fenster_bridge_set_scale s S754_nan = None /\
  fenster_bridge_set_scale s (S754_infinity sign) = None.
Proof.
  assert (forall n, scaled n S754_nan = None) as Hnan.
  { intros n. unfold scaled, Float32.mul, Float32.to_int.
    destruct (Float32.of_int n); reflexivity. }
  assert (forall n, scaled n (S754_infinity sign) = None) as Hinf.
  { intros n. unfold scaled, Float32.mul, Float32.to_int.
    destruct (Float32.of_int n); reflexivity. }
  split; apply set_scale_undefined; left; [apply Hnan | apply Hinf].
Qed.

(** ** A handle before open *)

(** X17: between create and open the accessors see the zeroed window
    state: the logical size is the requested one, but the physical size is
    0x0, the scale is 0.0, the modifier mask is 0, the key table holds 256
    zero entries and get_resized returns 0 with the size 0x0.  The cache
    (the requested size) therefore differs from the physical size unless
    the request was 0x0: it is the library's open that has to fill the
    physical size in. *)
Theorem fresh_handle_view `{L : Library} (m : gmap Z (list byte))
    (a_fb a_buf a_title : Z) (str : list byte) (w h : Z) (s : state) :
  fenster_bridge_create m a_fb a_buf a_title str w h = Handle s ->
  fenster_bridge_get_size s = (w, h) /\
  phys_size s = (0, 0) /\
  fenster_bridge_get_scale s = Float32.zero /\
  fenster_bridge_get_mod s = 0 /\
  fenster_bridge_get_keys s = replicate 256 0 /\
  (fenster_bridge_get_resized s).1 = (0, 0, 0) /\
  (does_differ (fb s) = false <-> w = 0 /\ h = 0).
Proof.
  intros Hc.
  destruct (create_cases m a_fb a_buf a_title str w h)
    as [[E _] | (t & m3 & _ & _ & _ & _ & _ & _ & _ & E)];
    rewrite E in Hc; [done |].
  inversion Hc; subst s; clear Hc E.
  do 6 (split; [reflexivity |]).
  rewrite does_differ_false. simpl. split; intros [? ?]; split; congruence.
Qed.

Lemma fresh_handle_view_witness :
  fenster_bridge_create (L := Demo.library) ∅ 16 2048 4096
    Demo.the_title 4 3 = Handle Demo.s0 /\
  fenster_bridge_get_size Demo.s0 = (4, 3) /\
  phys_size Demo.s0 = (0, 0) /\
  (fenster_bridge_get_resized Demo.s0).1 = (0, 0, 0).
Proof.
  split; [exact demo_made |].
  destruct (fresh_handle_view (L := Demo.library) ∅ 16 2048 4096
              Demo.the_title 4 3 Demo.s0 demo_made)
    as (H1 & H2 & _ & _ & _ & H3 & _).
  split; [exact H1 |]. split; [exact H2 | exact H3].
Defined.
